(** * QtWaves: the synthesis, mixing and spectrum code of [mutils.py] and
    [main.py], embedded as Rocq functions.

    Conventions of the embedding.
    - Python [int] is [Z]; array lengths are [nat].
    - A numpy array of float64 is a [list R]: samples are idealised as real
      numbers (no rounding, no nan, no infinities).
    - A Python exception is a value of [exn]; code that may raise returns a
      [result] and is sequenced with the error monad below.
    - The widget object [PyQtLayout] is a record holding the fields that
      [__init__] sets up for the wave logic; every method is a function from
      the record to the new record and what the call did.
    - numpy and scipy routines are modelled by their documented element-wise
      meaning, in modules [Np] and [Signal]. *)

From Stdlib Require Import Reals Lra Lia ZArith String Bool Arith List.
From Stdlib Require Import DecimalString DecimalNat.
Import ListNotations.

(** ** Exceptions and the error monad *)

Inductive exn : Type :=
| KeyError (key : string)
| ValueError
| ZeroDivisionError.

Inductive result (A : Type) : Type :=
| Ok (a : A)
| Raise (e : exn).

Arguments Ok {A} a.
Arguments Raise {A} e.

Definition bind {A B : Type} (m : result A) (k : A -> result B) : result B :=
  match m with
  | Ok a => k a
  | Raise e => Raise e
  end.

Declare Scope py_scope.
Delimit Scope py_scope with py.
Notation "x <- m ;; k" := (bind m (fun x => k))
  (at level 61, m at next level, right associativity) : py_scope.
Notation "' p <- m ;; k" := (bind m (fun p => k))
  (at level 61, p pattern, m at next level, right associativity) : py_scope.

Definition raises {A : Type} (m : result A) : bool :=
  match m with
  | Ok _ => false
  | Raise _ => true
  end.

Local Open Scope R_scope.
Local Open Scope py_scope.

(** ** numpy *)

Module Np.

(** [np.arange(n)] as floats: 0, 1, ..., n-1 (empty when [n <= 0]). *)
Definition arange (n : Z) : list R :=
  map INR (seq 0 (Z.to_nat n)).

(** [np.linspace(start, stop, num, endpoint=False)]. *)
Definition linspace (start stop : R) (num : Z) : result (list R) :=
  if (num <? 0)%Z then Raise ValueError
  else
    let div := num in
    let delta := stop - start in
    let y := arange num in
    let y :=
      if (0 <? div)%Z then
        let step := delta / IZR div in
        if Req_dec_T step 0
        then map (fun v => v / IZR div * delta) y
        else map (fun v => v * step) y
      else map (fun v => v * delta) y in
    Ok (map (fun v => v + start) y).

(** [np.mod(x, y)]: the remainder with the sign of the divisor. *)
Definition mod_ (x y : R) : R :=
  x - IZR (Int_part (x / y)) * y.

Definition sin (t : list R) : list R := map Rtrigo_def.sin t.

(** [np.multiply(a, c)] with a scalar [c]. *)
Definition multiply (a : list R) (c : R) : list R :=
  map (fun x => x * c) a.

(** [np.pad(a, (0, after))]: constant mode, zeros on the right. *)
Definition pad (a : list R) (after : nat) : list R :=
  a ++ repeat 0 after.

(** [a += b] on one-dimensional arrays: equal shapes add element by element,
    a one-element [b] is broadcast, anything else cannot be broadcast into
    the shape of [a]. *)
Definition iadd (a b : list R) : result (list R) :=
  if (length b =? length a)%nat
  then Ok (map (fun '(x, y) => x + y) (combine a b))
  else match b with
       | [c] => Ok (map (fun x => x + c) a)
       | _ => Raise ValueError
       end.

Definition sum (l : list R) : R := fold_right Rplus 0 l.

(** Coefficient [k] of the discrete Fourier transform of [x], as the pair
    (real part, imaginary part):
    sum over j of x_j * exp(-2 pi i j k / n), n the length of [x]. *)
Definition dft (x : list R) (k : nat) : R * R :=
  let n := INR (length x) in
  let angle j := 2 * PI * INR j * INR k / n in
  (sum (map (fun '(j, xj) => xj * cos (angle j)) (combine (seq 0 (length x)) x)),
   sum (map (fun '(j, xj) => - (xj * Rtrigo_def.sin (angle j)))
            (combine (seq 0 (length x)) x))).

(** [np.fft.rfft(x)]: the coefficients 0 .. n//2 of the transform of all
    [n] samples; an empty input is refused. *)
Definition rfft (x : list R) : result (list (R * R)) :=
  match x with
  | [] => Raise ValueError
  | _ => Ok (map (dft x) (seq 0 (length x / 2 + 1)))
  end.

(** [np.fft.rfftfreq(n, d)]: [arange(0, n//2 + 1) * (1.0 / (n * d))], the
    quotient being a Python float division. *)
Definition rfftfreq (n : nat) (d : R) : result (list R) :=
  if Req_dec_T (INR n * d) 0 then Raise ZeroDivisionError
  else
    let val := 1 / (INR n * d) in
    Ok (map (fun k => INR k * val) (seq 0 (n / 2 + 1))).

(** [np.abs] of a complex coefficient. *)
Definition abs (c : R * R) : R :=
  sqrt (fst c * fst c + snd c * snd c).

End Np.

(** ** scipy.signal *)

Module Signal.

(** One element of [signal.sawtooth(t, width)].  The widths used by the
    program are the constants 1 and 0.5, for which scipy's first mask
    (width outside [0, 1], filled with nan) is empty. *)
Definition sawtooth1 (width t : R) : R :=
  let tmod := Np.mod_ t (2 * PI) in
  if Rlt_dec tmod (width * 2 * PI)
  then tmod / (PI * width) - 1
  else (PI * (width + 1) - tmod) / (PI * (1 - width)).

Definition sawtooth (t : list R) (width : R) : list R :=
  map (sawtooth1 width) t.

(** One element of [signal.square(t)], duty 0.5. *)
Definition square1 (duty t : R) : R :=
  let tmod := Np.mod_ t (2 * PI) in
  if Rlt_dec tmod (duty * 2 * PI) then 1 else -1.

Definition square (t : list R) : list R :=
  map (square1 (1 / 2)) t.

End Signal.

(** ** mutils.py *)

Record WaveInfo : Type := mkWaveInfo {
  shape : string;
  duration : Z;
  freq : R;
  amplitude : R
}.

Definition phase (freq : R) (t : list R) : list R :=
  map (fun x => 2 * PI * freq * x) t.

Definition genSine (freq : R) (t : list R) : list R :=
  Np.sin (phase freq t).

Definition genTriangle (freq : R) (t : list R) : list R :=
  Signal.sawtooth (phase freq t) (1 / 2).

Definition genSawtooth (freq : R) (t : list R) : list R :=
  Signal.sawtooth (phase freq t) 1.

Definition genSquare (freq : R) (t : list R) : list R :=
  Signal.square (phase freq t).

Definition generator : Type := R -> list R -> list R.

(** The dict literal of [gen_wave]. *)
Definition waveGens : list (string * generator) :=
  [("sine", genSine); ("sawtooth", genSawtooth);
   ("square", genSquare); ("triangle", genTriangle)]%string.

(** [d[key]] on a dict with string keys. *)
Fixpoint getitem {V : Type} (d : list (string * V)) (key : string) : result V :=
  match d with
  | [] => Raise (KeyError key)
  | (k, v) :: d' => if String.eqb k key then Ok v else getitem d' key
  end.

Definition gen_wave (self : WaveInfo) (rate : Z) : result (list R) :=
  t <- Np.linspace 0 (IZR (duration self)) (duration self * rate) ;;
  gen <- getitem waveGens (shape self) ;;
  Ok (Np.multiply (gen (freq self) t) (amplitude self)).

(** Python's [a / b] with an int divisor. *)
Definition truediv (a : R) (b : Z) : result R :=
  if (b =? 0)%Z then Raise ZeroDivisionError else Ok (a / IZR b).

Definition get_fft (sampFreq : Z) (sound : list R) : result (list R * list R) :=
  let sound := map (fun x => x / 2 ^ 31) sound in
  length_in_s <- truediv (INR (length sound)) sampFreq ;;
  let time :=
    map (fun v => v / INR (length sound) * length_in_s)
        (Np.arange (Z.of_nat (length sound))) in
  let signal := sound in
  fft_spectrum <- Np.rfft signal ;;
  d <- truediv 1 sampFreq ;;
  freq <- Np.rfftfreq (length signal) d ;;
  let fft_spectrum_abs := map Np.abs fft_spectrum in
  Ok (freq, fft_spectrum_abs).

(** ** main.py: the wave state of [PyQtLayout] and its methods *)

Record PyQtLayout : Type := mkLayout {
  current_wave : string;
  max_dur : Z;
  wave_objects : list WaveInfo;
  rate : Z;
  plot_all : bool;
  wavedir : string
}.

(** [__init__], the wave related setup; [datadir] is what
    [mutils.get_datadir()] returned. *)
Definition init (datadir : string) : PyQtLayout :=
  {| current_wave := EmptyString;
     max_dur := 3;
     wave_objects := [];
     rate := 44100;
     plot_all := false;
     wavedir := datadir |}.

(** What one call of [update_plot] puts on the canvas and hands to the wave
    writer: the time axis, the curves of the single waves (only with
    "plot all"), the accumulated wave and its spectrum. *)
Record plots : Type := mkPlots {
  max_t : list R;
  curves : list (list R);
  final_vec : list R;
  spectrum : list R * list R
}.

(** [axes.plot(x, y)] refuses arrays of different first dimension. *)
Definition axes_plot (x y : list R) (drawn : list (list R)) : result (list (list R)) :=
  if (length x =? length y)%nat then Ok (drawn ++ [y]) else Raise ValueError.

(** The body of the loop over [wave_objects]. *)
Definition accumulate (self : PyQtLayout) (max_t : list R)
    (acc : list R * list (list R)) (v : WaveInfo) : result (list R * list (list R)) :=
  let '(final_vec, drawn) := acc in
  current <- gen_wave v (rate self) ;;
  let current :=
    if (length current <? length final_vec)%nat
    then Np.pad current (length final_vec - length current)
    else current in
  drawn <- (if plot_all self then axes_plot max_t current drawn else Ok drawn) ;;
  final_vec <- Np.iadd final_vec current ;;
  Ok (final_vec, drawn).

Fixpoint for_each {A S : Type} (body : S -> A -> result S) (l : list A) (acc : S)
  : result S :=
  match l with
  | [] => Ok acc
  | v :: l' => acc' <- body acc v ;; for_each body l' acc'
  end.

(** The branch of [update_plot] taken when there are waves, up to the
    spectrum plot. *)
Definition render (self : PyQtLayout) : result plots :=
  max_t <- Np.linspace 0 (IZR (max_dur self)) (max_dur self * rate self) ;;
  let final_vec := map (fun t => 0 * t) max_t in
  '(final_vec, drawn) <-
     for_each (accumulate self max_t) (wave_objects self) (final_vec, []) ;;
  xy <- get_fft (rate self) final_vec ;;
  Ok {| max_t := max_t; curves := drawn; final_vec := final_vec; spectrum := xy |}.

(** [str(n)] for a length. *)
Definition str (n : nat) : string :=
  NilEmpty.string_of_uint (Nat.to_uint n).

Definition file_end (self : PyQtLayout) : string :=
  ("wave_sum_" ++ str (length (wave_objects self)) ++ ".wav")%string.

Definition set_current_wave (self : PyQtLayout) (path : string) : PyQtLayout :=
  {| current_wave := path;
     max_dur := max_dur self;
     wave_objects := wave_objects self;
     rate := rate self;
     plot_all := plot_all self;
     wavedir := wavedir self |}.

Definition set_max_dur (self : PyQtLayout) (d : Z) : PyQtLayout :=
  {| current_wave := current_wave self;
     max_dur := d;
     wave_objects := wave_objects self;
     rate := rate self;
     plot_all := plot_all self;
     wavedir := wavedir self |}.

Definition set_wave_objects (self : PyQtLayout) (l : list WaveInfo) : PyQtLayout :=
  {| current_wave := current_wave self;
     max_dur := max_dur self;
     wave_objects := l;
     rate := rate self;
     plot_all := plot_all self;
     wavedir := wavedir self |}.

Definition set_plot_all (self : PyQtLayout) (b : bool) : PyQtLayout :=
  {| current_wave := current_wave self;
     max_dur := max_dur self;
     wave_objects := wave_objects self;
     rate := rate self;
     plot_all := b;
     wavedir := wavedir self |}.

(** [update_plot]: the object after the call, and either the exception that
    left it or what was drawn ([None] when there is no wave).  Writing and
    playing the file do not touch the fields; an [OSError] of the writer is
    caught by the method. *)
Definition update_plot (self : PyQtLayout) : PyQtLayout * result (option plots) :=
  match wave_objects self with
  | [] => (self, Ok None)
  | _ :: _ =>
      match render self with
      | Raise e => (self, Raise e)
      | Ok p =>
          (set_current_wave self (wavedir self ++ "/" ++ file_end self)%string,
           Ok (Some p))
      end
  end.

(** The text fields of the form after [float(eval(..))] and [int(..)]:
    either one of the conversions failed, or the four values. *)
Inductive fields : Type :=
| Unparsable
| Parsed (frequency : R) (duration : Z) (shape : string) (amplitude : R).

Definition addWave (self : PyQtLayout) (input : fields)
  : PyQtLayout * result (option plots) :=
  match input with
  | Unparsable => (self, Ok None)
  | Parsed frequency duration shape amplitude =>
      let self :=
        if (duration >? max_dur self)%Z then set_max_dur self duration else self in
      let self :=
        set_wave_objects self
          (wave_objects self ++ [mkWaveInfo shape duration frequency amplitude]) in
      update_plot self
  end.

(** [clear_wave_files]; the deleted files are outside the object. *)
Definition clear_wave_files (self : PyQtLayout) : PyQtLayout * result (option plots) :=
  let self := set_wave_objects self [] in
  update_plot self.

Definition plot_all_toggle (self : PyQtLayout) (checked : bool)
  : PyQtLayout * result (option plots) :=
  let self := set_plot_all self checked in
  update_plot self.

Definition play_audio_file (self : PyQtLayout) : PyQtLayout * result (option plots) :=
  (self, Ok None).

(** ** The table of waves: [get_kv_dict] and [tableSetup] *)

(** What a field of a wave can hold: a [str], an [int] or a [float]. *)
Inductive value : Type :=
| VStr (s : string)
| VInt (z : Z)
| VFloat (x : R).

Definition get_kv_dict (self : WaveInfo) : list (string * value) :=
  [("shape", VStr (shape self)); ("duration", VInt (duration self));
   ("freq", VFloat (freq self)); ("amplitude", VFloat (amplitude self))]%string.

(** [d[key] = v]: the value of an existing key is replaced in place, a new
    key goes to the end. *)
Fixpoint setitem {V : Type} (d : list (string * V)) (key : string) (v : V)
  : list (string * V) :=
  match d with
  | [] => [(key, v)]
  | (k, u) :: d' =>
      if String.eqb k key then (k, v) :: d' else (k, u) :: setitem d' key v
  end.

Definition keys {V : Type} (d : list (string * V)) : list string := map fst d.

(** [sorted] on strings, which Python compares character by character. *)
Fixpoint insert_sorted (s : string) (l : list string) : list string :=
  match l with
  | [] => [s]
  | h :: t => if String.leb s h then s :: l else h :: insert_sorted s t
  end.

Definition sorted (l : list string) : list string :=
  fold_right insert_sorted [] l.

Definition enumerate {A : Type} (l : list A) : list (nat * A) :=
  combine (seq 0 (length l)) l.

(** A list comprehension whose element expression may raise. *)
Fixpoint comprehension {A B : Type} (f : A -> result B) (l : list A)
  : result (list B) :=
  match l with
  | [] => Ok []
  | a :: l' => b <- f a ;; bs <- comprehension f l' ;; Ok (b :: bs)
  end.

(** [str(item)]; the text Python prints for a float is left to
    [float_str]. *)
Definition str_value (float_str : R -> string) (v : value) : string :=
  match v with
  | VStr s => s
  | VInt z => NilEmpty.string_of_int (Z.to_int z)
  | VFloat x => float_str x
  end.

(** The part of a [QTableWidget] that [tableSetup] writes: the two counts,
    the text of each cell that has an item, and the header labels. *)
Record QTableWidget : Type := mkTable {
  rowCount : nat;
  columnCount : nat;
  cell : nat -> nat -> option string;
  horizontalHeaderLabels : list string
}.

(** Rows past the new count are dropped with their items. *)
Definition setRowCount (t : QTableWidget) (rows : nat) : QTableWidget :=
  {| rowCount := rows;
     columnCount := columnCount t;
     cell := fun m n => if (m <? rows)%nat then cell t m n else None;
     horizontalHeaderLabels := horizontalHeaderLabels t |}.

Definition setColumnCount (t : QTableWidget) (columns : nat) : QTableWidget :=
  {| rowCount := rowCount t;
     columnCount := columns;
     cell := fun m n => if (n <? columns)%nat then cell t m n else None;
     horizontalHeaderLabels := firstn columns (horizontalHeaderLabels t) |}.

(** An item outside the table is not kept. *)
Definition setItem (t : QTableWidget) (row column : nat) (text : string)
  : QTableWidget :=
  if (row <? rowCount t)%nat && (column <? columnCount t)%nat
  then {| rowCount := rowCount t;
          columnCount := columnCount t;
          cell := fun m n =>
                    if (m =? row)%nat && (n =? column)%nat
                    then Some text else cell t m n;
          horizontalHeaderLabels := horizontalHeaderLabels t |}
  else t.

Definition setHorizontalHeaderLabels (t : QTableWidget) (labels : list string)
  : QTableWidget :=
  {| rowCount := rowCount t;
     columnCount := columnCount t;
     cell := cell t;
     horizontalHeaderLabels := firstn (columnCount t) labels |}.

(** The inner loop of [tableSetup]: one item per element of a column. *)
Definition fill_column (float_str : R -> string) (n : nat) (column : list value)
    (start : nat) (waveTable : QTableWidget) : QTableWidget :=
  fold_left
    (fun t '(m, item) => setItem t m n (str_value float_str item))
    (combine (seq start (length column)) column) waveTable.

(** [tableSetup], up to the two resize calls, which change no content. *)
Definition tableSetup (float_str : R -> string) (self : PyQtLayout)
    (waveTable : QTableWidget) : result QTableWidget :=
  let nrows := length (wave_objects self) in
  let waveTable := setRowCount waveTable nrows in
  let waveTable := setColumnCount waveTable 4 in
  tmp_data <-
    for_each
      (fun tmp_data i =>
         column <- comprehension (fun w_obj => getitem (get_kv_dict w_obj) i)
                                 (wave_objects self) ;;
         Ok (setitem tmp_data i column))
      ["shape"; "duration"; "freq"; "amplitude"]%string [] ;;
  '(horHeaders, waveTable) <-
    for_each
      (fun '(horHeaders, waveTable) '(n, key) =>
         column <- getitem tmp_data key ;;
         Ok (horHeaders ++ [key], fill_column float_str n column 0 waveTable))
      (enumerate (sorted (keys tmp_data))) ([], waveTable) ;;
  Ok (setHorizontalHeaderLabels waveTable horHeaders).

(** ** Sessions: the buttons the user can press *)

Inductive action : Type :=
| AddWave (input : fields)
| Reset
| Play
| PlotAll (checked : bool).

Definition perform (self : PyQtLayout) (a : action) : PyQtLayout * result (option plots) :=
  match a with
  | AddWave input => addWave self input
  | Reset => clear_wave_files self
  | Play => play_audio_file self
  | PlotAll checked => plot_all_toggle self checked
  end.

(** The object after a sequence of actions; an exception leaves the slot and
    the object stays as the slot left it. *)
Definition run (self : PyQtLayout) (session : list action) : PyQtLayout :=
  fold_left (fun s a => fst (perform s a)) session self.

(** The waves the user added during a session, in order. *)
Definition added (session : list action) : list WaveInfo :=
  flat_map
    (fun a =>
       match a with
       | AddWave (Parsed frequency duration shape amplitude) =>
           [mkWaveInfo shape duration frequency amplitude]
       | _ => []
       end)
    session.

(** The list of waves after a session, told from the actions alone. *)
Definition kept (session : list action) (start : list WaveInfo) : list WaveInfo :=
  fold_left
    (fun l a =>
       match a with
       | AddWave (Parsed frequency duration shape amplitude) =>
           l ++ [mkWaveInfo shape duration frequency amplitude]
       | Reset => []
       | _ => l
       end)
    session start.

(** A directory as [get_datadir] returns it on Linux. *)
Definition linux_datadir : string := "/home/user/.local/share/WavePlayground".


(** The largest element of a list of integers, if it has one. *)
Definition maximum (l : list Z) : option Z :=
  match l with
  | [] => None
  | d :: l' => Some (fold_left Z.max l' d)
  end.

(** ** Vocabulary of the statements *)

Definition supported (s : string) : bool :=
  existsb (String.eqb s) ["sine"; "sawtooth"; "square"; "triangle"]%string.

(** The unit waveform of a shape at phase argument [theta], and 0 for a
    string that is no shape. *)
Definition unit_wave (s : string) (theta : R) : R :=
  if String.eqb s "sine" then sin theta
  else if String.eqb s "sawtooth" then Signal.sawtooth1 1 theta
  else if String.eqb s "square" then Signal.square1 (1 / 2) theta
  else if String.eqb s "triangle" then Signal.sawtooth1 (1 / 2) theta
  else 0.

(** Sample [k] of an array, 0 past its end. *)
Definition sample (a : list R) (k : nat) : R := nth k a 0.

(** The array a wave renders to at a rate, empty if rendering raises. *)
Definition wave (v : WaveInfo) (rate : Z) : list R :=
  match gen_wave v rate with
  | Ok buf => buf
  | Raise _ => []
  end.

(** Sample [k] of every wave of a list added up, in list order, onto a
    starting value; a wave contributes 0 past its end. *)
Definition mixed (l : list WaveInfo) (rate : Z) (k : nat) (start : R) : R :=
  fold_left (fun acc v => acc + sample (wave v rate) k) l start.

(** A wave padded on the right with zeros up to [n] samples. *)
Definition padded (n : nat) (rate : Z) (v : WaveInfo) : list R :=
  Np.pad (wave v rate) (n - length (wave v rate)).

(** What a state is asked to satisfy for its waves to mix: every wave has a
    supported shape and a duration from 0 to [max_dur]. *)
Definition well_formed (self : PyQtLayout) : Prop :=
  Forall (fun v => supported (shape v) = true /\ (0 <= duration v <= max_dur self)%Z)
         (wave_objects self).


(** * Properties *)

(** ** The error monad *)

Lemma bind_Ok_inv {A B : Type} (m : result A) (k : A -> result B) (b : B) :
  bind m k = Ok b -> exists a, m = Ok a /\ k a = Ok b.
Proof.
  destruct m as [a | e]; simpl; intros H.
  - exists a. split; [reflexivity | exact H].
  - discriminate H.
Qed.

(** ** Strings that are shapes *)

Lemma supported_cases (s : string) :
  supported s = true ->
  s = "sine"%string \/ s = "sawtooth"%string \/
  s = "square"%string \/ s = "triangle"%string.
Proof.
  unfold supported. cbn [existsb]. rewrite !orb_true_iff, !String.eqb_eq.
  intuition discriminate.
Qed.

Lemma unsupported_getitem (s : string) :
  supported s = false -> getitem waveGens s = Raise (KeyError s).
Proof.
  unfold supported. cbn [existsb]. rewrite !orb_false_iff.
  intros (H1 & H2 & H3 & H4 & _).
  rewrite String.eqb_sym in H1, H2, H3, H4.
  cbv [getitem waveGens]. rewrite H1, H2, H3, H4. reflexivity.
Qed.

Ltac shape_cases H :=
  apply supported_cases in H;
  destruct H as [H | [H | [H | H]]].

(** The generator stored under a shape computes [unit_wave] element by
    element. *)
Lemma supported_getitem (s : string) :
  supported s = true ->
  exists gen, getitem waveGens s = Ok gen /\
    forall f t, gen f t = map (fun x => unit_wave s (2 * PI * f * x)) t.
Proof.
  intros H. shape_cases H; subst s; eexists; (split; [reflexivity |]);
    intros f t; unfold genSine, genSawtooth, genSquare, genTriangle, Np.sin,
      Signal.sawtooth, Signal.square, phase; rewrite map_map; reflexivity.
Qed.

(** ** numpy arrays *)

Lemma arange_length (n : Z) : length (Np.arange n) = Z.to_nat n.
Proof. unfold Np.arange. now rewrite length_map, length_seq. Qed.

Lemma linspace_length (a b : R) (n : Z) (l : list R) :
  Np.linspace a b n = Ok l -> length l = Z.to_nat n.
Proof.
  unfold Np.linspace. destruct (n <? 0)%Z; [discriminate |].
  intros H. injection H as <-.
  destruct (0 <? n)%Z; [destruct (Req_dec_T _ _) |];
    now rewrite !length_map, arange_length.
Qed.

Lemma linspace_total (a b : R) (n : Z) :
  (0 <= n)%Z -> exists l, Np.linspace a b n = Ok l.
Proof.
  intros Hn. unfold Np.linspace.
  destruct (Z.ltb_spec n 0); [lia |]. eexists. reflexivity.
Qed.

Lemma linspace_negative (a b : R) (n : Z) :
  (n < 0)%Z -> Np.linspace a b n = Raise ValueError.
Proof.
  intros Hn. unfold Np.linspace.
  destruct (Z.ltb_spec n 0); [reflexivity | lia].
Qed.

(** The time base of a wave of [d] seconds at [r] samples per second:
    point [k] is [k / r]. *)
Lemma linspace_time_base (d r : Z) :
  (0 < d)%Z -> (0 < r)%Z ->
  Np.linspace 0 (IZR d) (d * r) =
  Ok (map (fun k => INR k / IZR r) (seq 0 (Z.to_nat (d * r)))).
Proof.
  intros Hd Hr. unfold Np.linspace.
  assert (Hn : (0 < d * r)%Z) by lia.
  destruct (Z.ltb_spec (d * r) 0); [lia |].
  destruct (Z.ltb_spec 0 (d * r)); [| lia].
  assert (HD : 0 < IZR d) by now apply IZR_lt.
  assert (HR : 0 < IZR r) by now apply IZR_lt.
  rewrite mult_IZR.
  assert (Hstep : (IZR d - 0) / (IZR d * IZR r) = / IZR r) by (field; lra).
  destruct (Req_dec_T _ _) as [Hz | Hnz].
  - exfalso. rewrite Hstep in Hz.
    apply Rinv_0_lt_compat in HR. lra.
  - f_equal. unfold Np.arange. rewrite !map_map.
    apply map_ext. intros k. rewrite Hstep. unfold Rdiv. ring.
Qed.

Lemma gen_wave_samples (w : WaveInfo) (r : Z) :
  supported (shape w) = true -> (0 < duration w)%Z -> (0 < r)%Z ->
  gen_wave w r =
  Ok (map (fun k => unit_wave (shape w) (2 * PI * freq w * (INR k / IZR r))
                    * amplitude w)
          (seq 0 (Z.to_nat (duration w * r)))).
Proof.
  intros Hs Hd Hr. unfold gen_wave.
  rewrite linspace_time_base by assumption. cbn [bind].
  destruct (supported_getitem _ Hs) as (gen & -> & Hgen). cbn [bind].
  rewrite Hgen. unfold Np.multiply. now rewrite !map_map.
Qed.

(** A wave of no duration is the empty array. *)
Lemma gen_wave_empty (w : WaveInfo) (r : Z) :
  supported (shape w) = true -> (duration w * r = 0)%Z ->
  gen_wave w r = Ok [].
Proof.
  intros Hs H0. unfold gen_wave, Np.linspace. rewrite H0.
  cbn [Z.ltb Z.compare Np.arange Z.to_nat seq map bind].
  destruct (supported_getitem _ Hs) as (gen & -> & Hgen). cbn [bind].
  rewrite Hgen. reflexivity.
Qed.

Lemma gen_wave_length (w : WaveInfo) (r : Z) (buf : list R) :
  supported (shape w) = true ->
  gen_wave w r = Ok buf -> length buf = Z.to_nat (duration w * r).
Proof.
  intros Hs. unfold gen_wave. intros H.
  apply bind_Ok_inv in H. destruct H as (t & Ht & H).
  destruct (supported_getitem _ Hs) as (gen & Hg & Hgen).
  rewrite Hg in H. cbn [bind] in H. injection H as <-.
  rewrite Hgen. unfold Np.multiply. rewrite !length_map.
  eapply linspace_length, Ht.
Qed.

Lemma sample_map_seq (f : nat -> R) (n k : nat) :
  (k < n)%nat -> sample (map f (seq 0 n)) k = f k.
Proof.
  intros Hk. unfold sample.
  rewrite (nth_indep _ 0 (f 0%nat)) by now rewrite length_map, length_seq.
  now rewrite map_nth, seq_nth.
Qed.

Lemma gen_wave_unit (w : WaveInfo) (r : Z) (t : list R) :
  supported (shape w) = true ->
  Np.linspace 0 (IZR (duration w)) (duration w * r) = Ok t ->
  gen_wave w r =
  Ok (Np.multiply (map (fun x => unit_wave (shape w) (2 * PI * freq w * x)) t)
                  (amplitude w)).
Proof.
  intros Hs Ht. unfold gen_wave. rewrite Ht. cbn [bind].
  destruct (supported_getitem _ Hs) as (gen & -> & Hgen). cbn [bind].
  now rewrite Hgen.
Qed.

(** ** The unit waveforms stay between -1 and 1 *)

Lemma mod_range (x y : R) : 0 < y -> 0 <= Np.mod_ x y < y.
Proof.
  intros Hy. unfold Np.mod_.
  destruct (base_fp (x / y)) as [Hlo Hhi]. unfold frac_part in Hlo, Hhi.
  assert (Hx : x = x / y * y) by (field; lra).
  set (q := x / y) in *. set (i := IZR (Int_part q)) in *.
  split; nra.
Qed.

Lemma sawtooth1_full_range (t : R) : -1 <= Signal.sawtooth1 1 t <= 1.
Proof.
  unfold Signal.sawtooth1.
  assert (Hpi := PI_RGT_0).
  destruct (mod_range t (2 * PI)) as [Hlo Hhi]; [lra |].
  set (m := Np.mod_ t (2 * PI)) in *.
  destruct (Rlt_dec m (1 * 2 * PI)) as [_ | Hge]; [| lra].
  assert (Hm : m / (PI * 1) * PI = m) by (field; lra).
  set (q := m / (PI * 1)) in *. split; nra.
Qed.

Lemma sawtooth1_half_range (t : R) : -1 <= Signal.sawtooth1 (1 / 2) t <= 1.
Proof.
  unfold Signal.sawtooth1.
  assert (Hpi := PI_RGT_0).
  destruct (mod_range t (2 * PI)) as [Hlo Hhi]; [lra |].
  set (m := Np.mod_ t (2 * PI)) in *.
  destruct (Rlt_dec m (1 / 2 * 2 * PI)) as [Hlt | Hge].
  - assert (Hm : m / (PI * (1 / 2)) * PI = 2 * m) by (field; lra).
    set (q := m / (PI * (1 / 2))) in *. split; nra.
  - assert (Hm : (PI * (1 / 2 + 1) - m) / (PI * (1 - 1 / 2)) * PI = 3 * PI - 2 * m)
      by (field; lra).
    set (q := (PI * (1 / 2 + 1) - m) / (PI * (1 - 1 / 2))) in *. split; nra.
Qed.

Lemma square1_range (duty t : R) : -1 <= Signal.square1 duty t <= 1.
Proof. unfold Signal.square1. destruct (Rlt_dec _ _); lra. Qed.

Lemma unit_wave_range (s : string) (theta : R) : -1 <= unit_wave s theta <= 1.
Proof.
  unfold unit_wave.
  destruct (s =? "sine")%string; [apply SIN_bound |].
  destruct (s =? "sawtooth")%string; [apply sawtooth1_full_range |].
  destruct (s =? "square")%string; [apply square1_range |].
  destruct (s =? "triangle")%string; [apply sawtooth1_half_range | lra].
Qed.

Lemma scaled_unit_bound (u a : R) :
  -1 <= u <= 1 -> - Rabs a <= u * a <= Rabs a.
Proof.
  intros Hu. unfold Rabs. destruct (Rcase_abs a); split; nra.
Qed.

(** ** Claims about [gen_wave] *)

(** C1. A wave of a supported shape, of [d > 0] seconds, rendered at
    [r > 0] samples per second, is an array of exactly [d * r] samples;
    sample [k] is the unit waveform at time [k / r], scaled by the amplitude,
    and every such time lies in the half-open interval from 0 to [d]. *)
Theorem gen_wave_length_and_time_base (w : WaveInfo) (r : Z) :
  supported (shape w) = true -> (0 < duration w)%Z -> (0 < r)%Z ->
  exists buf,
    gen_wave w r = Ok buf /\
    Z.of_nat (length buf) = (duration w * r)%Z /\
    forall k, (k < length buf)%nat ->
      0 <= INR k / IZR r < IZR (duration w) /\
      sample buf k =
      unit_wave (shape w) (2 * PI * freq w * (INR k / IZR r)) * amplitude w.
Proof.
  intros Hs Hd Hr. eexists. split; [apply gen_wave_samples; assumption |].
  rewrite length_map, length_seq. split; [lia |].
  intros k Hk. split.
  - assert (HR : 0 < IZR r) by now apply IZR_lt.
    assert (Hk' : INR k < IZR (duration w) * IZR r).
    { rewrite <- mult_IZR, INR_IZR_INZ. apply IZR_lt. lia. }
    assert (H0 : 0 <= INR k) by apply pos_INR.
    assert (Hq : INR k / IZR r * IZR r = INR k) by (field; lra).
    set (q := INR k / IZR r) in *. split; nra.
  - now rewrite sample_map_seq.
Qed.

Lemma gen_wave_length_and_time_base_witness :
  exists buf,
    gen_wave (mkWaveInfo "sine" 2 440 1) 44100 = Ok buf /\
    Z.of_nat (length buf) = (2 * 44100)%Z /\
    forall k, (k < length buf)%nat ->
      0 <= INR k / IZR 44100 < IZR 2 /\
      sample buf k =
      unit_wave "sine" (2 * PI * 440 * (INR k / IZR 44100)) * 1.
Proof.
  apply (gen_wave_length_and_time_base (mkWaveInfo "sine" 2 440 1) 44100);
    [reflexivity | simpl; lia | lia].
Defined.

(** C7. Whenever a wave of a supported shape renders, the array is a unit
    waveform with every value between -1 and 1, multiplied element by
    element by the amplitude, so every sample lies between minus the
    absolute amplitude and the absolute amplitude; and it does render when
    duration times rate is not negative. *)
Theorem gen_wave_amplitude_bound (w : WaveInfo) (r : Z) :
  supported (shape w) = true -> (0 <= duration w * r)%Z ->
  exists unit,
    gen_wave w r = Ok (Np.multiply unit (amplitude w)) /\
    Forall (fun u => -1 <= u <= 1) unit /\
    Forall (fun x => - Rabs (amplitude w) <= x <= Rabs (amplitude w))
           (Np.multiply unit (amplitude w)).
Proof.
  intros Hs Hn.
  destruct (linspace_total 0 (IZR (duration w)) _ Hn) as (t & Ht).
  eexists. split; [apply (gen_wave_unit _ _ _ Hs Ht) |].
  split.
  - apply Forall_map, Forall_forall. intros x _. apply unit_wave_range.
  - unfold Np.multiply. rewrite map_map. apply Forall_map, Forall_forall.
    intros x _. apply scaled_unit_bound, unit_wave_range.
Qed.

Lemma gen_wave_amplitude_bound_witness :
  exists unit,
    gen_wave (mkWaveInfo "triangle" 1 220 (-3)) 8 = Ok (Np.multiply unit (-3)) /\
    Forall (fun u => -1 <= u <= 1) unit /\
    Forall (fun x => - Rabs (-3) <= x <= Rabs (-3)) (Np.multiply unit (-3)).
Proof.
  apply (gen_wave_amplitude_bound (mkWaveInfo "triangle" 1 220 (-3)) 8);
    [reflexivity | simpl; lia].
Defined.

(** C8. A wave whose shape is none of the four keys of the dict never
    renders: the call raises, and when duration times rate is not negative
    (so that the time base is built) the exception is the [KeyError] of the
    dict lookup.  A wave of a supported shape never raises [KeyError], and
    renders when duration times rate is not negative. *)
Theorem gen_wave_unknown_shape (w : WaveInfo) (r : Z) :
  (supported (shape w) = false ->
     raises (gen_wave w r) = true /\
     ((0 <= duration w * r)%Z -> gen_wave w r = Raise (KeyError (shape w)))) /\
  (supported (shape w) = true ->
     (forall key, gen_wave w r <> Raise (KeyError key)) /\
     ((0 <= duration w * r)%Z -> raises (gen_wave w r) = false)).
Proof.
  split; intros Hs.
  - unfold gen_wave. rewrite (unsupported_getitem _ Hs).
    destruct (Z.lt_ge_cases (duration w * r) 0) as [Hneg | Hpos].
    + rewrite linspace_negative by assumption. split; [reflexivity | lia].
    + destruct (linspace_total 0 (IZR (duration w)) _ Hpos) as (t & ->).
      split; [reflexivity | intros _; reflexivity].
  - split.
    + intros key.
      destruct (Z.lt_ge_cases (duration w * r) 0) as [Hneg | Hpos].
      * unfold gen_wave. rewrite linspace_negative by assumption. discriminate.
      * destruct (linspace_total 0 (IZR (duration w)) _ Hpos) as (t & Ht).
        rewrite (gen_wave_unit _ _ _ Hs Ht). discriminate.
    + intros Hpos.
      destruct (linspace_total 0 (IZR (duration w)) _ Hpos) as (t & Ht).
      now rewrite (gen_wave_unit _ _ _ Hs Ht).
Qed.

Lemma gen_wave_unknown_shape_witness :
  gen_wave (mkWaveInfo "noise" 1 440 1) 44100 = Raise (KeyError "noise") /\
  raises (gen_wave (mkWaveInfo "square" 1 440 1) 44100) = false.
Proof.
  split.
  - apply (gen_wave_unknown_shape (mkWaveInfo "noise" 1 440 1) 44100);
      [reflexivity | simpl; lia].
  - apply (gen_wave_unknown_shape (mkWaveInfo "square" 1 440 1) 44100);
      [reflexivity | simpl; lia].
Defined.

(** ** Padding and adding arrays *)

Lemma sample_past_end (a : list R) (k : nat) :
  (length a <= k)%nat -> sample a k = 0.
Proof. intros H. unfold sample. now apply nth_overflow. Qed.

Lemma sample_pad (a : list R) (n k : nat) :
  sample (Np.pad a n) k = sample a k.
Proof.
  unfold sample, Np.pad.
  destruct (Nat.lt_ge_cases k (length a)) as [Hlt | Hge].
  - now rewrite app_nth1.
  - rewrite app_nth2 by assumption. rewrite nth_repeat.
    symmetry. now apply nth_overflow.
Qed.

Lemma pad_length (a : list R) (n : nat) :
  length (Np.pad a n) = (length a + n)%nat.
Proof. unfold Np.pad. now rewrite length_app, repeat_length. Qed.

Lemma sample_zip_add (a b : list R) (k : nat) :
  length b = length a ->
  sample (map (fun '(x, y) => x + y) (combine a b)) k = sample a k + sample b k.
Proof.
  revert b k. induction a as [| x a IH]; intros [| y b] k Hlen;
    try discriminate Hlen.
  - unfold sample. destruct k; simpl; lra.
  - destruct k as [| k]; [reflexivity |].
    injection Hlen as Hlen. exact (IH b k Hlen).
Qed.

Lemma iadd_same_length (a b : list R) :
  length b = length a ->
  Np.iadd a b = Ok (map (fun '(x, y) => x + y) (combine a b)).
Proof. intros H. unfold Np.iadd. now rewrite H, Nat.eqb_refl. Qed.

Lemma zip_add_length (a b : list R) :
  length b = length a ->
  length (map (fun '(x, y) => x + y) (combine a b)) = length a.
Proof. intros H. rewrite length_map, length_combine, H. apply Nat.min_id. Qed.

(** ** The accumulation loop of [update_plot] *)

Lemma wave_gen_wave (v : WaveInfo) (r : Z) :
  supported (shape v) = true -> (0 <= duration v * r)%Z ->
  gen_wave v r = Ok (wave v r) /\ length (wave v r) = Z.to_nat (duration v * r).
Proof.
  intros Hs Hn.
  destruct (linspace_total 0 (IZR (duration v)) _ Hn) as (t & Ht).
  pose proof (gen_wave_unit _ _ _ Hs Ht) as Hg.
  unfold wave. rewrite Hg. split; [reflexivity |].
  eapply gen_wave_length; eassumption.
Qed.

Lemma padded_length (n : nat) (r : Z) (v : WaveInfo) :
  supported (shape v) = true -> (0 <= duration v * r)%Z ->
  (Z.to_nat (duration v * r) <= n)%nat ->
  length (padded n r v) = n.
Proof.
  intros Hs Hn Hfit. destruct (wave_gen_wave v r Hs Hn) as [_ Hlen].
  unfold padded. rewrite pad_length. lia.
Qed.

Lemma sample_padded (n : nat) (r : Z) (v : WaveInfo) (k : nat) :
  sample (padded n r v) k = sample (wave v r) k.
Proof. apply sample_pad. Qed.

(** One pass of the loop body over a wave that fits the accumulator. *)
Lemma accumulate_fits (self : PyQtLayout) (t acc : list R) (drawn : list (list R))
    (v : WaveInfo) :
  supported (shape v) = true ->
  (0 <= duration v * rate self)%Z ->
  (Z.to_nat (duration v * rate self) <= length acc)%nat ->
  length t = length acc ->
  accumulate self t (acc, drawn) v =
  Ok (map (fun '(x, y) => x + y) (combine acc (padded (length acc) (rate self) v)),
      if plot_all self then drawn ++ [padded (length acc) (rate self) v] else drawn).
Proof.
  intros Hs Hn Hfit Ht.
  destruct (wave_gen_wave v (rate self) Hs Hn) as [Hg Hlen].
  unfold accumulate. rewrite Hg. cbn [bind].
  assert (Hcur :
    (if (length (wave v (rate self)) <? length acc)%nat
     then Np.pad (wave v (rate self)) (length acc - length (wave v (rate self)))
     else wave v (rate self)) = padded (length acc) (rate self) v).
  { unfold padded. destruct (Nat.ltb_spec (length (wave v (rate self))) (length acc)).
    - reflexivity.
    - replace (length acc - length (wave v (rate self)))%nat with 0%nat by lia.
      unfold Np.pad. simpl. now rewrite app_nil_r. }
  rewrite Hcur.
  assert (Hpl : length (padded (length acc) (rate self) v) = length acc)
    by now apply padded_length.
  unfold axes_plot. rewrite Ht, Hpl, Nat.eqb_refl.
  rewrite iadd_same_length by assumption.
  destruct (plot_all self); reflexivity.
Qed.

Lemma for_each_accumulate (self : PyQtLayout) (t : list R) (l : list WaveInfo) :
  forall (acc : list R) (drawn : list (list R)),
  Forall (fun v => supported (shape v) = true /\
                   (0 <= duration v * rate self)%Z /\
                   (Z.to_nat (duration v * rate self) <= length acc)%nat) l ->
  length t = length acc ->
  exists final,
    for_each (accumulate self t) l (acc, drawn) =
    Ok (final,
        if plot_all self
        then drawn ++ map (padded (length acc) (rate self)) l
        else drawn) /\
    length final = length acc /\
    forall k, sample final k = mixed l (rate self) k (sample acc k).
Proof.
  induction l as [| v l IH]; intros acc drawn Hall Ht.
  - exists acc. cbn [for_each map mixed fold_left]. rewrite app_nil_r.
    split; [now destruct (plot_all self) |]. split; reflexivity.
  - inversion Hall as [| v' l' (Hs & Hn & Hfit) Hall']; subst v' l'.
    cbn [for_each]. rewrite accumulate_fits by assumption. cbn [bind].
    set (cur := padded (length acc) (rate self) v).
    assert (Hpl : length cur = length acc) by now apply padded_length.
    set (acc' := map (fun '(x, y) => x + y) (combine acc cur)).
    assert (Hacc' : length acc' = length acc) by now apply zip_add_length.
    destruct (IH acc' (if plot_all self then drawn ++ [cur] else drawn))
      as (final & Hrun & Hlen & Hsum).
    { rewrite Hacc'. exact Hall'. }
    { now rewrite Hacc'. }
    exists final. split; [| split].
    + rewrite Hrun, Hacc'. f_equal. f_equal.
      destruct (plot_all self); [| reflexivity].
      cbn [map]. now rewrite <- app_assoc.
    + now rewrite Hlen.
    + intros k. rewrite Hsum. cbn [mixed fold_left]. unfold mixed. f_equal.
      unfold acc'. rewrite sample_zip_add by assumption.
      unfold cur. now rewrite sample_padded.
Qed.

(** ** [get_fft] returns on a non-empty array *)

Lemma rfft_returns (x : list R) :
  x <> [] -> Np.rfft x = Ok (map (Np.dft x) (seq 0 (length x / 2 + 1))).
Proof. destruct x; [contradiction | reflexivity]. Qed.

Lemma get_fft_returns (sampFreq : Z) (sound : list R) :
  sound <> [] -> sampFreq <> 0%Z ->
  get_fft sampFreq sound =
  Ok (map (fun k => INR k * (1 / (INR (length sound) * (1 / IZR sampFreq))))
          (seq 0 (length sound / 2 + 1)),
      map (fun k => Np.abs (Np.dft (map (fun x => x / 2 ^ 31) sound) k))
          (seq 0 (length sound / 2 + 1))).
Proof.
  intros Hne Hr. unfold get_fft, truediv.
  destruct (Z.eqb_spec sampFreq 0) as [| _]; [contradiction |]. cbn [bind].
  rewrite rfft_returns by (destruct sound; [contradiction | discriminate]).
  cbn [bind]. rewrite !length_map. unfold Np.rfftfreq.
  destruct (Req_dec_T _ _) as [Hz | _].
  - exfalso. destruct sound as [| x sound]; [contradiction |].
    cbn [length] in Hz. rewrite S_INR in Hz.
    assert (H0 : 0 <= INR (length sound)) by apply pos_INR.
    assert (Hq : IZR sampFreq <> 0) by now apply not_0_IZR.
    assert (Hi : 1 / IZR sampFreq * IZR sampFreq = 1) by (field; assumption).
    set (q := 1 / IZR sampFreq) in *. nra.
  - cbn [bind]. rewrite map_map. reflexivity.
Qed.

(** ** [render] and [update_plot] on a state whose waves fit *)

Lemma sample_zeros (t : list R) (k : nat) :
  sample (map (fun x => 0 * x) t) k = 0.
Proof.
  unfold sample. revert k. induction t as [| x t IH]; intros [| k]; simpl;
    try reflexivity; [ring | apply IH].
Qed.

Lemma render_returns (self : PyQtLayout) :
  well_formed self -> (0 < rate self)%Z -> (0 < max_dur self)%Z ->
  exists p,
    render self = Ok p /\
    Np.linspace 0 (IZR (max_dur self)) (max_dur self * rate self) = Ok (max_t p) /\
    length (final_vec p) = Z.to_nat (max_dur self * rate self) /\
    (forall k, sample (final_vec p) k = mixed (wave_objects self) (rate self) k 0) /\
    curves p =
      (if plot_all self
       then map (padded (Z.to_nat (max_dur self * rate self)) (rate self))
                (wave_objects self)
       else []) /\
    get_fft (rate self) (final_vec p) = Ok (spectrum p).
Proof.
  intros Hwf Hr Hm. unfold render.
  assert (Hn : (0 < max_dur self * rate self)%Z) by lia.
  destruct (linspace_total 0 (IZR (max_dur self)) (max_dur self * rate self))
    as (t & Ht); [lia |].
  pose proof (linspace_length _ _ _ _ Ht) as Htl.
  rewrite Ht. cbn [bind].
  set (zeros := map (fun x => 0 * x) t).
  assert (Hzl : length zeros = Z.to_nat (max_dur self * rate self))
    by (unfold zeros; now rewrite length_map).
  destruct (for_each_accumulate self t (wave_objects self) zeros [])
    as (final & Hrun & Hlen & Hsum).
  { unfold well_formed in Hwf. eapply Forall_impl; [| exact Hwf].
    intros v (Hs & Hd). split; [exact Hs |]. rewrite Hzl.
    split; [nia |]. apply Z2Nat.inj_le; nia. }
  { now rewrite Hzl. }
  rewrite Hrun. cbn [bind].
  assert (Hfne : final <> []).
  { intros ->. cbn [length] in Hlen. lia. }
  rewrite get_fft_returns by (assumption || lia). cbn [bind].
  eexists. split; [reflexivity |]. cbn [max_t final_vec curves spectrum].
  split; [reflexivity |]. split; [lia |]. split.
  - intros k. rewrite Hsum. unfold zeros. now rewrite sample_zeros.
  - split; [now rewrite Hzl |]. now apply get_fft_returns; [| lia].
Qed.

Lemma update_plot_returns (self : PyQtLayout) :
  well_formed self -> (0 < rate self)%Z -> (0 < max_dur self)%Z ->
  wave_objects self <> [] ->
  exists p,
    snd (update_plot self) = Ok (Some p) /\
    render self = Ok p /\
    length (final_vec p) = Z.to_nat (max_dur self * rate self) /\
    (forall k, sample (final_vec p) k = mixed (wave_objects self) (rate self) k 0) /\
    curves p =
      (if plot_all self
       then map (padded (Z.to_nat (max_dur self * rate self)) (rate self))
                (wave_objects self)
       else []).
Proof.
  intros Hwf Hr Hm Hne.
  destruct (render_returns self Hwf Hr Hm) as (p & Hp & _ & Hlen & Hsum & Hc & _).
  exists p. unfold update_plot.
  destruct (wave_objects self) as [| v l] eqn:E; [contradiction |].
  rewrite Hp. cbn [snd]. repeat split; assumption.
Qed.

(** ** What the methods do to the fields *)

Lemma update_plot_fields (self : PyQtLayout) :
  let self' := fst (update_plot self) in
  max_dur self' = max_dur self /\
  wave_objects self' = wave_objects self /\
  rate self' = rate self /\
  plot_all self' = plot_all self /\
  wavedir self' = wavedir self.
Proof.
  unfold update_plot.
  destruct (wave_objects self) as [| v l] eqn:E.
  - cbn. repeat split; assumption.
  - destruct (render self); cbn; repeat split; assumption.
Qed.

Lemma update_plot_max_dur (self : PyQtLayout) :
  max_dur (fst (update_plot self)) = max_dur self.
Proof. apply update_plot_fields. Qed.

Lemma update_plot_wave_objects (self : PyQtLayout) :
  wave_objects (fst (update_plot self)) = wave_objects self.
Proof. apply update_plot_fields. Qed.

Lemma update_plot_rate (self : PyQtLayout) :
  rate (fst (update_plot self)) = rate self.
Proof. apply update_plot_fields. Qed.

Lemma update_plot_plot_all (self : PyQtLayout) :
  plot_all (fst (update_plot self)) = plot_all self.
Proof. apply update_plot_fields. Qed.

Lemma addWave_max_dur (self : PyQtLayout) (f : R) (d : Z) (s : string) (a : R) :
  max_dur (fst (addWave self (Parsed f d s a))) =
  if (d >? max_dur self)%Z then d else max_dur self.
Proof.
  unfold addWave. rewrite update_plot_max_dur.
  destruct (d >? max_dur self)%Z; reflexivity.
Qed.

Lemma addWave_wave_objects (self : PyQtLayout) (f : R) (d : Z) (s : string) (a : R) :
  wave_objects (fst (addWave self (Parsed f d s a))) =
  wave_objects self ++ [mkWaveInfo s d f a].
Proof.
  unfold addWave. rewrite update_plot_wave_objects.
  destruct (d >? max_dur self)%Z; reflexivity.
Qed.

Lemma addWave_rate (self : PyQtLayout) (input : fields) :
  rate (fst (addWave self input)) = rate self.
Proof.
  destruct input as [| f d s a]; [reflexivity |].
  unfold addWave. rewrite update_plot_rate.
  destruct (d >? max_dur self)%Z; reflexivity.
Qed.

Lemma clear_wave_files_fields (self : PyQtLayout) :
  clear_wave_files self = (set_wave_objects self [], Ok None).
Proof. reflexivity. Qed.

Lemma perform_rate (self : PyQtLayout) (a : action) :
  rate (fst (perform self a)) = rate self.
Proof.
  destruct a as [input | | | checked]; cbn [perform].
  - apply addWave_rate.
  - reflexivity.
  - reflexivity.
  - unfold plot_all_toggle. now rewrite update_plot_rate.
Qed.

Lemma perform_max_dur (self : PyQtLayout) (a : action) :
  max_dur (fst (perform self a)) =
  match a with
  | AddWave (Parsed _ d _ _) => Z.max d (max_dur self)
  | _ => max_dur self
  end.
Proof.
  destruct a as [[| f d s x] | | | checked]; cbn [perform]; try reflexivity.
  - rewrite addWave_max_dur. destruct (Z.gtb_spec d (max_dur self)); lia.
  - unfold plot_all_toggle. now rewrite update_plot_max_dur.
Qed.

Lemma perform_wave_objects (self : PyQtLayout) (a : action) :
  wave_objects (fst (perform self a)) =
  match a with
  | AddWave (Parsed f d s x) => wave_objects self ++ [mkWaveInfo s d f x]
  | Reset => []
  | _ => wave_objects self
  end.
Proof.
  destruct a as [[| f d s x] | | | checked]; cbn [perform]; try reflexivity.
  - apply addWave_wave_objects.
  - unfold plot_all_toggle. now rewrite update_plot_wave_objects.
Qed.

Lemma run_snoc (self : PyQtLayout) (session : list action) (a : action) :
  run self (session ++ [a]) = fst (perform (run self session) a).
Proof. unfold run. now rewrite fold_left_app. Qed.

(** ** Sessions *)

Lemma run_cons (self : PyQtLayout) (a : action) (session : list action) :
  run self (a :: session) = run (fst (perform self a)) session.
Proof. reflexivity. Qed.

Lemma run_rate (session : list action) (self : PyQtLayout) :
  rate (run self session) = rate self.
Proof.
  revert self. induction session as [| a l IH]; intros self; [reflexivity |].
  now rewrite run_cons, IH, perform_rate.
Qed.

Lemma run_wave_objects (session : list action) (self : PyQtLayout) :
  wave_objects (run self session) = kept session (wave_objects self).
Proof.
  revert self. induction session as [| a l IH]; intros self; [reflexivity |].
  rewrite run_cons, IH, perform_wave_objects. unfold kept. cbn [fold_left].
  destruct a as [[| f d s x] | | |]; reflexivity.
Qed.

Lemma run_max_dur (session : list action) (self : PyQtLayout) :
  max_dur (run self session) =
  fold_left Z.max (map duration (added session)) (max_dur self).
Proof.
  revert self. induction session as [| a l IH]; intros self; [reflexivity |].
  rewrite run_cons, IH, perform_max_dur.
  destruct a as [[| f d s x] | | |]; try reflexivity.
  cbn [added flat_map app map fold_left duration]. now rewrite Z.max_comm.
Qed.

Lemma fold_max_ge (l : list Z) (m : Z) : (m <= fold_left Z.max l m)%Z.
Proof.
  revert m. induction l as [| d l IH]; intros m; cbn [fold_left]; [lia |].
  specialize (IH (Z.max m d)). lia.
Qed.

Lemma fold_max_bounded (l : list Z) (m : Z) :
  Forall (fun d => (d <= m)%Z) l -> fold_left Z.max l m = m.
Proof.
  induction 1 as [| d l Hd _ IH]; cbn [fold_left]; [reflexivity |].
  now rewrite Z.max_l.
Qed.

Lemma fold_max_covers (l : list Z) (m : Z) :
  Forall (fun d => (d <= fold_left Z.max l m)%Z) l.
Proof.
  revert m. induction l as [| d l IH]; intros m; constructor.
  - cbn [fold_left]. pose proof (fold_max_ge l (Z.max m d)). lia.
  - apply IH.
Qed.

(** The waves in the list were all added during the session. *)
Lemma kept_added (P : WaveInfo -> Prop) (session : list action) :
  Forall P (added session) -> Forall P (kept session []).
Proof.
  induction session as [| a l IH] using rev_ind; intros H; [constructor |].
  unfold added in H. rewrite flat_map_app in H. apply Forall_app in H.
  destruct H as [Hl Ha]. unfold kept. rewrite fold_left_app. cbn [fold_left].
  fold (kept l []). specialize (IH Hl).
  destruct a as [[| f d s x] | | |]; try assumption.
  apply Forall_app. split; [assumption |].
  cbn [flat_map app] in Ha. exact Ha.
Qed.

(** In a session the object stays well formed as long as the added waves
    have supported shapes and no negative duration. *)
Lemma run_well_formed (datadir : string) (session : list action) :
  Forall (fun v => supported (shape v) = true /\ (0 <= duration v)%Z) (added session) ->
  well_formed (run (init datadir) session).
Proof.
  intros H. unfold well_formed. rewrite run_wave_objects, run_max_dur.
  cbn [init wave_objects max_dur].
  apply kept_added.
  pose proof (fold_max_covers (map duration (added session)) 3) as Hc.
  rewrite Forall_map in Hc.
  rewrite Forall_forall in *. intros v Hv.
  specialize (H v Hv). specialize (Hc v Hv). cbn beta in Hc. intuition lia.
Qed.

(** ** Claims about the mixer state *)

(** C2, amended.  After every session [max_dur] is the largest of 3, the
    value [__init__] gives it, and the durations of all waves added so far;
    no action makes it smaller; [addWave] sets it to the new duration
    exactly when that duration is greater, and leaves it as it is
    otherwise. *)
Theorem max_dur_running_maximum (datadir : string) (session : list action) :
  let self := run (init datadir) session in
  max_dur self = fold_left Z.max (map duration (added session)) 3%Z /\
  (forall a, (max_dur self <= max_dur (fst (perform self a)))%Z) /\
  (forall f d s x,
     let self' := fst (addWave self (Parsed f d s x)) in
     ((d > max_dur self)%Z -> max_dur self' = d) /\
     ((d <= max_dur self)%Z -> max_dur self' = max_dur self)).
Proof.
  cbv zeta. split; [apply run_max_dur |]. split.
  - intros a. rewrite perform_max_dur.
    destruct a as [[| f d s x] | | |]; lia.
  - intros f d s x. rewrite addWave_max_dur.
    destruct (Z.gtb_spec d (max_dur (run (init datadir) session))); split; lia.
Qed.

(** C2 as stated fails: after adding a single wave of 1 second [max_dur]
    is 3, while the largest duration added is 1. *)
Lemma max_dur_exceeds_added_durations :
  maximum (map duration (added [AddWave (Parsed 440 1 "sine" 1)])) = Some 1%Z /\
  max_dur (run (init linux_datadir) [AddWave (Parsed 440 1 "sine" 1)]) = 3%Z /\
  Some (max_dur (run (init linux_datadir) [AddWave (Parsed 440 1 "sine" 1)]))
  <> maximum (map duration (added [AddWave (Parsed 440 1 "sine" 1)])).
Proof.
  rewrite run_max_dur. cbn. repeat split. discriminate.
Qed.

(** C9. With no wave in the list [update_plot] raises nothing, draws
    nothing and returns the object as it was. *)
Theorem update_plot_no_waves (self : PyQtLayout) :
  wave_objects self = [] -> update_plot self = (self, Ok None).
Proof. intros H. unfold update_plot. now rewrite H. Qed.

Lemma update_plot_no_waves_witness :
  update_plot (init linux_datadir) = (init linux_datadir, Ok None).
Proof. apply (update_plot_no_waves (init linux_datadir)). reflexivity. Defined.

(** C10. [clear_wave_files] empties the list of waves, raises nothing, and
    leaves [max_dur], [rate] and the other fields as they were. *)
Theorem clear_wave_files_keeps_max_dur (self : PyQtLayout) :
  let self' := fst (clear_wave_files self) in
  snd (clear_wave_files self) = Ok None /\
  wave_objects self' = [] /\
  max_dur self' = max_dur self /\
  rate self' = rate self /\
  plot_all self' = plot_all self /\
  current_wave self' = current_wave self /\
  wavedir self' = wavedir self.
Proof. cbv zeta. rewrite clear_wave_files_fields. cbn. repeat split. Qed.

(** ** Claims about mixing *)

(** C3, amended.  With exactly two waves in the list, of 1 and 2 seconds,
    [update_plot] at rate [r] accumulates an array of [max_dur * r] samples,
    which is at least [3 * r] since [max_dur] is never below 3: its first
    [r] samples are the sums of the samples of the two waves, the next [r]
    samples are those of the second wave alone, and all later samples
    are 0. *)
Theorem mix_one_and_two_seconds (self : PyQtLayout) (w1 w2 : WaveInfo) :
  wave_objects self = [w1; w2] ->
  duration w1 = 1%Z -> duration w2 = 2%Z ->
  supported (shape w1) = true -> supported (shape w2) = true ->
  (0 < rate self)%Z -> (3 <= max_dur self)%Z ->
  exists b1 b2 p,
    gen_wave w1 (rate self) = Ok b1 /\
    gen_wave w2 (rate self) = Ok b2 /\
    snd (update_plot self) = Ok (Some p) /\
    Z.of_nat (length (final_vec p)) = (max_dur self * rate self)%Z /\
    (3 * rate self <= Z.of_nat (length (final_vec p)))%Z /\
    forall k,
      ((Z.of_nat k < rate self)%Z ->
         sample (final_vec p) k = sample b1 k + sample b2 k) /\
      ((rate self <= Z.of_nat k < 2 * rate self)%Z ->
         sample (final_vec p) k = sample b2 k) /\
      ((2 * rate self <= Z.of_nat k)%Z -> sample (final_vec p) k = 0).
Proof.
  intros Hl Hd1 Hd2 Hs1 Hs2 Hr Hm.
  destruct (wave_gen_wave w1 (rate self) Hs1) as [Hg1 Hlen1]; [lia |].
  destruct (wave_gen_wave w2 (rate self) Hs2) as [Hg2 Hlen2]; [lia |].
  destruct (update_plot_returns self) as (p & Hp & _ & Hlen & Hsum & _).
  { unfold well_formed. rewrite Hl. repeat constructor; (assumption || lia). }
  { assumption. }
  { lia. }
  { rewrite Hl. discriminate. }
  exists (wave w1 (rate self)), (wave w2 (rate self)), p.
  repeat (split; [assumption |]).
  split; [lia |]. split; [nia |].
  intros k. rewrite Hsum, Hl. cbn [mixed fold_left]. rewrite Rplus_0_l.
  rewrite Hd1 in Hlen1. rewrite Hd2 in Hlen2.
  split; [reflexivity |]. split; intros Hk.
  - rewrite (sample_past_end (wave w1 (rate self))) by lia. ring.
  - rewrite (sample_past_end (wave w1 (rate self))) by lia.
    rewrite (sample_past_end (wave w2 (rate self))) by lia. ring.
Qed.

Lemma mix_one_and_two_seconds_witness :
  exists b1 b2 p,
    gen_wave (mkWaveInfo "sine" 1 440 1) 44100 = Ok b1 /\
    gen_wave (mkWaveInfo "square" 2 220 1) 44100 = Ok b2 /\
    snd (update_plot
           (mkLayout EmptyString 3 [mkWaveInfo "sine" 1 440 1; mkWaveInfo "square" 2 220 1]
                     44100 false linux_datadir)) = Ok (Some p) /\
    Z.of_nat (length (final_vec p)) = (3 * 44100)%Z /\
    (3 * 44100 <= Z.of_nat (length (final_vec p)))%Z /\
    forall k,
      ((Z.of_nat k < 44100)%Z ->
         sample (final_vec p) k = sample b1 k + sample b2 k) /\
      ((44100 <= Z.of_nat k < 2 * 44100)%Z ->
         sample (final_vec p) k = sample b2 k) /\
      ((2 * 44100 <= Z.of_nat k)%Z -> sample (final_vec p) k = 0).
Proof.
  apply (mix_one_and_two_seconds
           (mkLayout EmptyString 3 [mkWaveInfo "sine" 1 440 1; mkWaveInfo "square" 2 220 1]
                     44100 false linux_datadir)
           (mkWaveInfo "sine" 1 440 1) (mkWaveInfo "square" 2 220 1));
    try reflexivity; cbn [rate max_dur]; lia.
Defined.

(** C3 as stated fails: after adding a wave of 1 second and a wave of
    2 seconds to a fresh object, the accumulated array has 3 * 44100
    samples, not 2 * 44100. *)
Lemma mix_one_and_two_seconds_is_three_long :
  map duration
      (wave_objects
         (run (init linux_datadir)
              [AddWave (Parsed 440 1 "sine" 1); AddWave (Parsed 220 2 "square" 1)]))
  = [1%Z; 2%Z] /\
  exists p,
    snd (update_plot
           (run (init linux_datadir)
                [AddWave (Parsed 440 1 "sine" 1); AddWave (Parsed 220 2 "square" 1)]))
    = Ok (Some p) /\
    Z.of_nat (length (final_vec p)) = (3 * 44100)%Z /\
    Z.of_nat (length (final_vec p)) <> (2 * 44100)%Z.
Proof.
  set (session := [AddWave (Parsed 440 1 "sine" 1); AddWave (Parsed 220 2 "square" 1)]).
  assert (Hw : wave_objects (run (init linux_datadir) session)
               = [mkWaveInfo "sine" 1 440 1; mkWaveInfo "square" 2 220 1])
    by (rewrite run_wave_objects; reflexivity).
  assert (Hm : max_dur (run (init linux_datadir) session) = 3%Z)
    by (rewrite run_max_dur; reflexivity).
  assert (Hr : rate (run (init linux_datadir) session) = 44100%Z)
    by (rewrite run_rate; reflexivity).
  split; [now rewrite Hw |].
  destruct (update_plot_returns (run (init linux_datadir) session))
    as (p & Hp & _ & Hlen & _).
  { apply run_well_formed. repeat constructor; cbn [duration]; lia. }
  { rewrite Hr. lia. }
  { rewrite Hm. lia. }
  { rewrite Hw. discriminate. }
  exists p. split; [exact Hp |].
  rewrite Hm, Hr in Hlen. rewrite Hlen. split; lia.
Qed.

(** C4, amended.  [max_dur] starts at 3 and no action makes it smaller, so
    it is at least 3 after every session.  When no wave added during the
    session was longer than 3 seconds (all added waves having a supported
    shape and no negative duration) and the list is not empty, the
    accumulated array has [3 * rate] samples: sample [k] is the sum of the
    samples [k] of the waves, each counted as 0 past its end, and with
    "plot all" the curves drawn are the waves padded with zeros on the right
    to that length. *)
Theorem max_dur_floor_and_mix_length (datadir : string) (session : list action) :
  let self := run (init datadir) session in
  max_dur (init datadir) = 3%Z /\
  (3 <= max_dur self)%Z /\
  (forall a, (max_dur self <= max_dur (fst (perform self a)))%Z) /\
  max_dur (fst (update_plot self)) = max_dur self /\
  (Forall (fun v => supported (shape v) = true /\ (0 <= duration v <= 3)%Z)
          (added session) ->
   wave_objects self <> [] ->
   exists p,
     snd (update_plot self) = Ok (Some p) /\
     Z.of_nat (length (final_vec p)) = (3 * rate self)%Z /\
     (forall k, sample (final_vec p) k = mixed (wave_objects self) (rate self) k 0) /\
     (plot_all self = true ->
      curves p = map (padded (Z.to_nat (3 * rate self)) (rate self))
                     (wave_objects self) /\
      Forall (fun c => length c = length (final_vec p)) (curves p))).
Proof.
  cbv zeta. set (self := run (init datadir) session).
  assert (Hfloor : (3 <= max_dur self)%Z).
  { unfold self. rewrite run_max_dur. apply fold_max_ge. }
  split; [reflexivity |]. split; [exact Hfloor |]. split; [| split].
  - intros a. rewrite perform_max_dur. destruct a as [[| f d s x] | | |]; lia.
  - apply update_plot_max_dur.
  - intros Hall Hne.
    assert (Hr : rate self = 44100%Z) by (unfold self; now rewrite run_rate).
    assert (Hm : max_dur self = 3%Z).
    { unfold self. rewrite run_max_dur. cbn [init max_dur].
      apply fold_max_bounded. rewrite Forall_map.
      eapply Forall_impl; [| exact Hall]. cbn beta. intros v Hv. lia. }
    assert (Hwf : well_formed self).
    { apply run_well_formed. eapply Forall_impl; [| exact Hall].
      cbn beta. intros v Hv. intuition lia. }
    destruct (update_plot_returns self Hwf) as (p & Hp & _ & Hlen & Hsum & Hc);
      [lia | lia | exact Hne |].
    rewrite Hm in Hlen, Hc.
    exists p. split; [exact Hp |]. split; [lia |]. split; [exact Hsum |].
    intros Hpa. rewrite Hpa in Hc. split; [exact Hc |].
    rewrite Hc, Hlen. apply Forall_map.
    eapply Forall_impl; [| exact Hwf]. cbn beta. intros v (Hs & Hd).
    apply padded_length; [exact Hs | nia |]. apply Z2Nat.inj_le; nia.
Qed.

Lemma max_dur_floor_and_mix_length_witness :
  exists p,
    snd (update_plot (run (init linux_datadir) [AddWave (Parsed 440 1 "sine" 1)]))
    = Ok (Some p) /\
    Z.of_nat (length (final_vec p))
    = (3 * rate (run (init linux_datadir) [AddWave (Parsed 440 1 "sine" 1)]))%Z.
Proof.
  destruct (max_dur_floor_and_mix_length linux_datadir
              [AddWave (Parsed 440 1 "sine" 1)])
    as (_ & _ & _ & _ & H).
  destruct H as (p & Hp & Hlen & _).
  - repeat constructor; cbn [duration]; lia.
  - rewrite run_wave_objects. discriminate.
  - exists p. split; assumption.
Defined.

(** C4 as stated fails: add a wave of 5 seconds, reset, add a wave of
    1 second.  Every wave in the list is shorter than 3 seconds, yet the
    accumulated array has 5 * 44100 samples. *)
Lemma short_waves_after_reset_mix_long :
  Forall (fun v => (duration v < 3)%Z)
         (wave_objects
            (run (init linux_datadir)
                 [AddWave (Parsed 440 5 "sine" 1); Reset;
                  AddWave (Parsed 440 1 "sine" 1)])) /\
  exists p,
    snd (update_plot
           (run (init linux_datadir)
                [AddWave (Parsed 440 5 "sine" 1); Reset;
                 AddWave (Parsed 440 1 "sine" 1)]))
    = Ok (Some p) /\
    Z.of_nat (length (final_vec p)) = (5 * 44100)%Z /\
    Z.of_nat (length (final_vec p)) <> (3 * 44100)%Z.
Proof.
  set (session := [AddWave (Parsed 440 5 "sine" 1); Reset;
                   AddWave (Parsed 440 1 "sine" 1)]).
  assert (Hw : wave_objects (run (init linux_datadir) session)
               = [mkWaveInfo "sine" 1 440 1])
    by (rewrite run_wave_objects; reflexivity).
  assert (Hm : max_dur (run (init linux_datadir) session) = 5%Z)
    by (rewrite run_max_dur; reflexivity).
  assert (Hr : rate (run (init linux_datadir) session) = 44100%Z)
    by (rewrite run_rate; reflexivity).
  split.
  - rewrite Hw. repeat constructor.
  - destruct (update_plot_returns (run (init linux_datadir) session))
      as (p & Hp & _ & Hlen & _).
    { apply run_well_formed. repeat constructor; cbn [duration]; lia. }
    { rewrite Hr. lia. }
    { rewrite Hm. lia. }
    { rewrite Hw. discriminate. }
    exists p. split; [exact Hp |].
    rewrite Hm, Hr in Hlen. rewrite Hlen. split; lia.
Qed.

(** ** Claims about the spectrum *)

Lemma half_INR (n : nat) :
  2 * INR (n / 2) <= INR n <= 2 * INR (n / 2) + 1.
Proof.
  pose proof (Nat.div_mod_eq n 2) as Hdm.
  assert (Hmod : (n mod 2 < 2)%nat) by (apply Nat.mod_upper_bound; discriminate).
  assert (H1 : (2 * (n / 2) <= n)%nat) by lia.
  assert (H2 : (n <= 2 * (n / 2) + 1)%nat) by lia.
  apply le_INR in H1, H2.
  rewrite mult_INR in H1. rewrite plus_INR, mult_INR in H2.
  change (INR 2) with (1 + 1) in H1, H2. change (INR 1) with 1 in H2. lra.
Qed.

(** C5. On an array of [n >= 1] samples and a positive rate [get_fft]
    returns [n / 2 + 1] frequencies and as many magnitudes.  The
    frequencies start at 0, are not negative, go up in steps of exactly
    rate / n, hence strictly, and the last one is at most rate / 2 and
    less than half a step below it. *)
Theorem get_fft_frequency_bins (sampFreq : Z) (sound : list R) :
  (1 <= length sound)%nat -> (0 < sampFreq)%Z ->
  exists x y,
    get_fft sampFreq sound = Ok (x, y) /\
    length x = (length sound / 2 + 1)%nat /\
    length y = length x /\
    sample x 0 = 0 /\
    (forall k, (k < length x)%nat -> 0 <= sample x k) /\
    (forall k, (S k < length x)%nat ->
       sample x (S k) - sample x k = IZR sampFreq / INR (length sound)) /\
    (forall j k, (j < k < length x)%nat -> sample x j < sample x k) /\
    IZR sampFreq / 2 - IZR sampFreq / INR (length sound) / 2
      <= sample x (length x - 1) <= IZR sampFreq / 2.
Proof.
  intros Hn Hr.
  assert (Hne : sound <> []) by (intros ->; cbn [length] in Hn; lia).
  eexists. eexists. split; [apply get_fft_returns; [exact Hne | lia] |].
  rewrite !length_map, !length_seq.
  set (n := length sound) in *.
  assert (HR : 0 < IZR sampFreq) by now apply IZR_lt.
  assert (HN : 0 < INR n) by (apply lt_0_INR; lia).
  assert (Hval : 1 / (INR n * (1 / IZR sampFreq)) = IZR sampFreq / INR n)
    by (field; lra).
  rewrite Hval. set (step := IZR sampFreq / INR n).
  assert (Hstep : 0 < step) by (apply Rdiv_lt_0_compat; assumption).
  assert (Hsn : step * INR n = IZR sampFreq) by (unfold step; field; lra).
  split; [reflexivity |]. split; [reflexivity |]. split; [| split; [| split; [| split]]].
  - rewrite sample_map_seq by lia. simpl. ring.
  - intros k Hk. rewrite sample_map_seq by lia.
    pose proof (pos_INR k). nra.
  - intros k Hk. rewrite !sample_map_seq by lia. rewrite S_INR. ring.
  - intros j k Hjk. rewrite !sample_map_seq by lia.
    assert (Hlt : INR j < INR k) by (apply lt_INR; lia). nra.
  - replace (n / 2 + 1 - 1)%nat with (n / 2)%nat by lia.
    rewrite sample_map_seq by lia.
    pose proof (half_INR n) as [Hlo Hhi]. rewrite <- Hsn.
    split; nra.
Qed.

Lemma get_fft_frequency_bins_witness :
  exists x y,
    get_fft 8 [1; 0; -1; 0; 1] = Ok (x, y) /\
    length x = (5 / 2 + 1)%nat /\
    length y = length x /\
    sample x 0 = 0 /\
    (forall k, (k < length x)%nat -> 0 <= sample x k) /\
    (forall k, (S k < length x)%nat -> sample x (S k) - sample x k = IZR 8 / INR 5) /\
    (forall j k, (j < k < length x)%nat -> sample x j < sample x k) /\
    IZR 8 / 2 - IZR 8 / INR 5 / 2 <= sample x (length x - 1) <= IZR 8 / 2.
Proof.
  apply (get_fft_frequency_bins 8 [1; 0; -1; 0; 1]); [cbn [length]; lia | lia].
Defined.

(** Dividing the samples by a constant divides each sum of the transform. *)
Lemma sum_scaled (h : nat -> R -> R) (s : R) (x : list R) :
  (forall j v, h j (v / s) = h j v / s) ->
  forall js : list nat,
  Np.sum (map (fun '(j, xj) => h j xj) (combine js (map (fun v => v / s) x))) =
  Np.sum (map (fun '(j, xj) => h j xj) (combine js x)) / s.
Proof.
  intros Hh. induction x as [| v x IH]; intros [| j js]; cbn [map combine Np.sum fold_right];
    try (unfold Rdiv; ring).
  fold (Np.sum (map (fun '(j, xj) => h j xj) (combine js (map (fun v => v / s) x)))).
  fold (Np.sum (map (fun '(j, xj) => h j xj) (combine js x))).
  rewrite IH, Hh. unfold Rdiv. ring.
Qed.

Lemma dft_scaled (s : R) (x : list R) (k : nat) :
  Np.dft (map (fun v => v / s) x) k =
  (fst (Np.dft x k) / s, snd (Np.dft x k) / s).
Proof.
  unfold Np.dft. rewrite length_map. cbn [fst snd]. f_equal.
  - apply (sum_scaled
             (fun j xj => xj * cos (2 * PI * INR j * INR k / INR (length x)))).
    intros j v. unfold Rdiv. ring.
  - apply (sum_scaled
             (fun j xj => - (xj * sin (2 * PI * INR j * INR k / INR (length x))))).
    intros j v. unfold Rdiv. ring.
Qed.

Lemma abs_scaled (s : R) (c : R * R) :
  0 < s -> Np.abs (fst c / s, snd c / s) = Np.abs c / s.
Proof.
  intros Hs. unfold Np.abs. cbn [fst snd]. destruct c as [a b]. cbn [fst snd].
  replace (a / s * (a / s) + b / s * (b / s)) with ((a * a + b * b) / (s * s))
    by (field; lra).
  rewrite sqrt_div_alt by nra. rewrite sqrt_square by lra. reflexivity.
Qed.

(** C6. On a non-empty array [get_fft] returns, as magnitudes, the absolute
    values of the coefficients 0 .. n/2 of the discrete Fourier transform of
    the [n] samples as they are (every sample with weight one, no sample
    added), each divided by 2^31; the magnitudes are the same whatever the
    sample rate. *)
Theorem get_fft_magnitudes (sampFreq : Z) (sound : list R) :
  sound <> [] -> sampFreq <> 0%Z ->
  exists x y,
    get_fft sampFreq sound = Ok (x, y) /\
    y = map (fun k => Np.abs (Np.dft sound k) / 2 ^ 31)
            (seq 0 (length sound / 2 + 1)) /\
    forall sampFreq', sampFreq' <> 0%Z ->
      exists x', get_fft sampFreq' sound = Ok (x', y).
Proof.
  intros Hne Hr. eexists. eexists.
  split; [apply get_fft_returns; assumption |].
  assert (Hy : map (fun k => Np.abs (Np.dft (map (fun v => v / 2 ^ 31) sound) k))
                   (seq 0 (length sound / 2 + 1))
               = map (fun k => Np.abs (Np.dft sound k) / 2 ^ 31)
                     (seq 0 (length sound / 2 + 1))).
  { apply map_ext. intros k. rewrite dft_scaled. apply abs_scaled.
    apply pow_lt. lra. }
  split; [exact Hy |].
  intros r' Hr'. eexists. apply get_fft_returns; assumption.
Qed.

Lemma get_fft_magnitudes_witness :
  exists x y,
    get_fft 44100 [1; 0; -1; 0] = Ok (x, y) /\
    y = map (fun k => Np.abs (Np.dft [1; 0; -1; 0] k) / 2 ^ 31)
            (seq 0 (length [1; 0; -1; 0] / 2 + 1)) /\
    forall sampFreq', sampFreq' <> 0%Z ->
      exists x', get_fft sampFreq' [1; 0; -1; 0] = Ok (x', y).
Proof.
  apply (get_fft_magnitudes 44100 [1; 0; -1; 0]); [discriminate | lia].
Defined.

(** ** Small checks on concrete inputs *)

Example supported_square : supported "square" = true.
Proof. reflexivity. Qed.

Example supported_noise : supported "noise" = false.
Proof. reflexivity. Qed.

Example file_end_two_waves :
  file_end (mkLayout EmptyString 3
              [mkWaveInfo "sine" 1 440 1; mkWaveInfo "square" 2 220 1]
              44100 false linux_datadir)
  = "wave_sum_2.wav"%string.
Proof. reflexivity. Qed.

Example kept_after_reset :
  kept [AddWave (Parsed 440 5 "sine" 1); Reset; AddWave Unparsable;
        AddWave (Parsed 440 1 "sine" 1)] []
  = [mkWaveInfo "sine" 1 440 1].
Proof. reflexivity. Qed.

(** A sine wave starts at 0 whatever its amplitude. *)
Example sine_starts_at_zero (f a : R) :
  sample (wave (mkWaveInfo "sine" 1 f a) 44100) 0 = 0.
Proof.
  unfold wave. rewrite gen_wave_samples by (reflexivity || (cbn [duration]; lia)).
  rewrite sample_map_seq by (cbn [duration]; lia).
  cbn [shape freq amplitude].
  change (unit_wave "sine" (2 * PI * f * (INR 0 / IZR 44100)))
    with (sin (2 * PI * f * (INR 0 / IZR 44100))).
  replace (2 * PI * f * (INR 0 / IZR 44100)) with 0
    by (cbn [INR]; unfold Rdiv; ring).
  rewrite sin_0. ring.
Qed.

(** * Further properties of the code *)

(** ** The generators at the start of a wave and one period later *)

Lemma mod_zero (y : R) : Np.mod_ 0 y = 0.
Proof.
  unfold Np.mod_. replace (0 / y) with (INR 0) by (cbn [INR]; unfold Rdiv; ring).
  rewrite Int_part_INR. cbn [Z.of_nat]. ring.
Qed.



Lemma unit_wave_start :
  unit_wave "sine" 0 = 0 /\ unit_wave "sawtooth" 0 = -1 /\
  unit_wave "square" 0 = 1 /\ unit_wave "triangle" 0 = -1.
Proof.
  assert (Hpi := PI_RGT_0).
  repeat split.
  - apply sin_0.
  - change (Signal.sawtooth1 1 0 = -1). unfold Signal.sawtooth1.
    rewrite mod_zero. destruct (Rlt_dec 0 (1 * 2 * PI)); [| lra].
    unfold Rdiv. ring.
  - change (Signal.square1 (1 / 2) 0 = 1). unfold Signal.square1.
    rewrite mod_zero. destruct (Rlt_dec 0 (1 / 2 * 2 * PI)); [reflexivity | lra].
  - change (Signal.sawtooth1 (1 / 2) 0 = -1). unfold Signal.sawtooth1.
    rewrite mod_zero. destruct (Rlt_dec 0 (1 / 2 * 2 * PI)); [| lra].
    unfold Rdiv. ring.
Qed.

(** The first sample of a rendered wave: 0 for a sine, the amplitude for a
    square, minus the amplitude for a sawtooth and for a triangle. *)
Theorem gen_wave_first_sample (w : WaveInfo) (r : Z) :
  (0 < duration w)%Z -> (0 < r)%Z -> supported (shape w) = true ->
  exists buf,
    gen_wave w r = Ok buf /\
    (shape w = "sine"%string -> sample buf 0 = 0) /\
    (shape w = "sawtooth"%string -> sample buf 0 = - amplitude w) /\
    (shape w = "square"%string -> sample buf 0 = amplitude w) /\
    (shape w = "triangle"%string -> sample buf 0 = - amplitude w).
Proof.
  intros Hd Hr Hs. eexists. split; [now apply gen_wave_samples |].
  rewrite sample_map_seq by lia.
  replace (2 * PI * freq w * (INR 0 / IZR r)) with 0
    by (cbn [INR]; unfold Rdiv; ring).
  destruct unit_wave_start as (H1 & H2 & H3 & H4).
  repeat split; intros ->; rewrite ?H1, ?H2, ?H3, ?H4; ring.
Qed.

Lemma gen_wave_first_sample_witness :
  exists buf,
    gen_wave (mkWaveInfo "square" 1 440 2) 44100 = Ok buf /\
    sample buf 0 = 2.
Proof.
  destruct (gen_wave_first_sample (mkWaveInfo "square" 1 440 2) 44100)
    as (buf & Hg & _ & _ & Hsq & _); [reflexivity | reflexivity | reflexivity |].
  exists buf. split; [exact Hg | now apply Hsq].
Defined.



(** Every sample of a square wave is the amplitude or minus the
    amplitude. *)
Theorem gen_wave_square_values (w : WaveInfo) (r : Z) :
  shape w = "square"%string -> (0 <= duration w * r)%Z ->
  exists buf,
    gen_wave w r = Ok buf /\
    Z.of_nat (length buf) = (duration w * r)%Z /\
    Forall (fun x => x = amplitude w \/ x = - amplitude w) buf.
Proof.
  intros Hs Hn.
  assert (Hsup : supported (shape w) = true) by now rewrite Hs.
  destruct (linspace_total 0 (IZR (duration w)) _ Hn) as (t & Ht).
  eexists. split; [apply (gen_wave_unit _ _ _ Hsup Ht) |]. split.
  - unfold Np.multiply. rewrite !length_map, (linspace_length _ _ _ _ Ht). lia.
  - unfold Np.multiply. rewrite map_map. apply Forall_map, Forall_forall.
    intros x _. rewrite Hs.
    change (unit_wave "square" (2 * PI * freq w * x))
      with (Signal.square1 (1 / 2) (2 * PI * freq w * x)).
    unfold Signal.square1. destruct (Rlt_dec _ _); [left | right]; ring.
Qed.

Lemma gen_wave_square_values_witness :
  exists buf,
    gen_wave (mkWaveInfo "square" 2 100 3) 8 = Ok buf /\
    Z.of_nat (length buf) = (2 * 8)%Z /\
    Forall (fun x => x = 3 \/ x = - 3) buf.
Proof.
  apply (gen_wave_square_values (mkWaveInfo "square" 2 100 3) 8);
    [reflexivity | cbn [duration]; lia].
Defined.

(** ** [get_fft]: when it raises, and how it follows the samples *)


Lemma sum_times (h : nat -> R -> R) (c : R) (x : list R) :
  (forall j v, h j (c * v) = c * h j v) ->
  forall js : list nat,
  Np.sum (map (fun '(j, xj) => h j xj) (combine js (map (fun v => c * v) x))) =
  c * Np.sum (map (fun '(j, xj) => h j xj) (combine js x)).
Proof.
  intros Hh. induction x as [| v x IH]; intros [| j js];
    cbn [map combine Np.sum fold_right]; try ring.
  fold (Np.sum (map (fun '(j, xj) => h j xj) (combine js (map (fun v => c * v) x)))).
  fold (Np.sum (map (fun '(j, xj) => h j xj) (combine js x))).
  rewrite IH, Hh. ring.
Qed.

Lemma dft_times (c : R) (x : list R) (k : nat) :
  Np.dft (map (fun v => c * v) x) k =
  (c * fst (Np.dft x k), c * snd (Np.dft x k)).
Proof.
  unfold Np.dft. rewrite length_map. cbn [fst snd]. f_equal.
  - apply (sum_times
             (fun j xj => xj * cos (2 * PI * INR j * INR k / INR (length x)))).
    intros j v. ring.
  - apply (sum_times
             (fun j xj => - (xj * sin (2 * PI * INR j * INR k / INR (length x))))).
    intros j v. ring.
Qed.

Lemma abs_times (c : R) (z : R * R) :
  Np.abs (c * fst z, c * snd z) = Rabs c * Np.abs z.
Proof.
  unfold Np.abs. destruct z as [a b]. cbn [fst snd].
  replace (c * a * (c * a) + c * b * (c * b)) with (Rsqr c * (a * a + b * b))
    by (unfold Rsqr; ring).
  rewrite sqrt_mult; [| apply Rle_0_sqr | nra].
  now rewrite sqrt_Rsqr_abs.
Qed.

(** Making every sample [c] times as large makes every magnitude
    [|c|] times as large and leaves the frequencies as they are; with
    [c = 0], silence has an all-zero spectrum. *)
Theorem get_fft_scales (sampFreq : Z) (sound : list R) (c : R) :
  sound <> [] -> sampFreq <> 0%Z ->
  exists x y,
    get_fft sampFreq sound = Ok (x, y) /\
    get_fft sampFreq (map (fun v => c * v) sound)
    = Ok (x, map (fun m => Rabs c * m) y).
Proof.
  intros Hne Hr. eexists. eexists.
  split; [apply get_fft_returns; assumption |].
  rewrite get_fft_returns;
    [| destruct sound; [contradiction | discriminate] | assumption].
  rewrite length_map. apply f_equal. apply f_equal. rewrite (map_map _ (fun m => Rabs c * m)).
  apply map_ext. intros k. rewrite map_map.
  rewrite (map_ext (fun v => c * v / 2 ^ 31) (fun v => c * (v / 2 ^ 31)))
    by (intros v; unfold Rdiv; ring).
  rewrite <- (map_map (fun v => v / 2 ^ 31) (fun v => c * v)).
  rewrite dft_times. apply abs_times.
Qed.

Lemma get_fft_scales_witness :
  exists x y,
    get_fft 44100 [1; 2; 3] = Ok (x, y) /\
    get_fft 44100 (map (fun v => -2 * v) [1; 2; 3])
    = Ok (x, map (fun m => Rabs (-2) * m) y).
Proof.
  apply (get_fft_scales 44100 [1; 2; 3] (-2)); [discriminate | lia].
Defined.

Lemma get_fft_magnitudes_aux (sampFreq : Z) (sound : list R) :
  sound <> [] -> sampFreq <> 0%Z ->
  exists x,
    get_fft sampFreq sound =
    Ok (x, map (fun k => Np.abs (Np.dft sound k) / 2 ^ 31)
               (seq 0 (length sound / 2 + 1))).
Proof.
  intros Hne Hr. eexists. rewrite get_fft_returns by assumption.
  apply f_equal. apply f_equal. apply map_ext. intros k. rewrite dft_scaled.
  apply abs_scaled. apply pow_lt. lra.
Qed.

Lemma combine_seq_sum (h : nat -> R) (x : list R) (start : nat) :
  (forall j, h j = 1) ->
  Np.sum (map (fun '(j, xj) => xj * h j) (combine (seq start (length x)) x))
  = Np.sum x.
Proof.
  intros Hh. revert start. induction x as [| v x IH]; intros start; [reflexivity |].
  cbn [length seq combine map Np.sum fold_right].
  fold (Np.sum (map (fun '(j, xj) => xj * h j) (combine (seq (S start) (length x)) x))).
  fold (Np.sum x). rewrite IH, Hh. ring.
Qed.

Lemma combine_seq_null (h : nat -> R) (x : list R) (start : nat) :
  (forall j, h j = 0) ->
  Np.sum (map (fun '(j, xj) => - (xj * h j)) (combine (seq start (length x)) x))
  = 0.
Proof.
  intros Hh. revert start. induction x as [| v x IH]; intros start; [reflexivity |].
  cbn [length seq combine map Np.sum fold_right].
  fold (Np.sum (map (fun '(j, xj) => - (xj * h j))
                    (combine (seq (S start) (length x)) x))).
  rewrite IH, Hh. ring.
Qed.

(** The first magnitude, at frequency 0, is the absolute value of the sum
    of the samples divided by 2^31. *)
Theorem get_fft_zero_frequency (sampFreq : Z) (sound : list R) :
  sound <> [] -> sampFreq <> 0%Z ->
  exists x y,
    get_fft sampFreq sound = Ok (x, y) /\
    sample x 0 = 0 /\
    sample y 0 = Rabs (Np.sum sound) / 2 ^ 31.
Proof.
  intros Hne Hr.
  destruct (get_fft_magnitudes_aux sampFreq sound Hne Hr) as (x & Hx).
  exists x. eexists. split; [exact Hx |]. split.
  - rewrite get_fft_returns in Hx by assumption. injection Hx as <-.
    rewrite sample_map_seq by lia. cbn [INR]. ring.
  - rewrite sample_map_seq by lia. f_equal.
    unfold Np.dft, Np.abs. cbn [fst snd].
    rewrite (combine_seq_sum
               (fun j => cos (2 * PI * INR j * INR 0 / INR (length sound)))).
    + rewrite (combine_seq_null
                 (fun j => sin (2 * PI * INR j * INR 0 / INR (length sound)))).
      * rewrite Rmult_0_l, Rplus_0_r. apply sqrt_Rsqr_abs.
      * intros j. cbn [INR]. unfold Rdiv. rewrite Rmult_0_r, Rmult_0_l. apply sin_0.
    + intros j. cbn [INR]. unfold Rdiv. rewrite Rmult_0_r, Rmult_0_l. apply cos_0.
Qed.

Lemma get_fft_zero_frequency_witness :
  exists x y,
    get_fft 44100 [1; 2; -5] = Ok (x, y) /\
    sample x 0 = 0 /\
    sample y 0 = Rabs (Np.sum [1; 2; -5]) / 2 ^ 31.
Proof.
  apply (get_fft_zero_frequency 44100 [1; 2; -5]); [discriminate | lia].
Defined.

(** ** [update_plot]: what it keeps and what the flag changes *)

Lemma render_ignores_current_wave (self : PyQtLayout) (path : string) :
  render (set_current_wave self path) = render self.
Proof. reflexivity. Qed.

(** Calling [update_plot] a second time changes nothing more: the object
    after two calls is the object after one, and the second call draws or
    raises what the first did. *)
Theorem update_plot_twice (self : PyQtLayout) :
  update_plot (fst (update_plot self)) = update_plot self.
Proof.
  unfold update_plot at 2 3.
  destruct (wave_objects self) as [| v l] eqn:E.
  - cbn [fst]. unfold update_plot. now rewrite E.
  - destruct (render self) as [p | e] eqn:Er; cbn [fst].
    + unfold update_plot. cbn [wave_objects set_current_wave]. rewrite E.
      rewrite render_ignores_current_wave, Er. reflexivity.
    + unfold update_plot. now rewrite E, Er.
Qed.

Lemma sample_ext (a b : list R) :
  length a = length b -> (forall k, sample a k = sample b k) -> a = b.
Proof.
  intros Hlen Hs. apply (nth_ext a b 0 0); [exact Hlen |].
  intros k _. apply Hs.
Qed.

(** The "plot all" flag changes the curves drawn and nothing else: on a
    well formed object with waves, the time axis, the accumulated array and
    the spectrum are the same with the box checked and unchecked; unchecked
    no single wave is drawn, checked one curve per wave is. *)
Theorem plot_all_toggle_keeps_the_sound (self : PyQtLayout) :
  well_formed self -> (0 < rate self)%Z -> (0 < max_dur self)%Z ->
  wave_objects self <> [] ->
  exists p q,
    snd (plot_all_toggle self true) = Ok (Some p) /\
    snd (plot_all_toggle self false) = Ok (Some q) /\
    max_t p = max_t q /\
    final_vec p = final_vec q /\
    spectrum p = spectrum q /\
    curves q = [] /\
    length (curves p) = length (wave_objects self).
Proof.
  intros Hwf Hr Hm Hne.
  destruct (render_returns (set_plot_all self true))
    as (p & Hp & Htp & Hlp & Hsp & Hcp & Hfp); [assumption .. |].
  destruct (render_returns (set_plot_all self false))
    as (q & Hq & Htq & Hlq & Hsq & Hcq & Hfq); [assumption .. |].
  cbn [set_plot_all max_dur rate wave_objects plot_all] in *.
  exists p, q.
  assert (Hfv : final_vec p = final_vec q).
  { apply sample_ext; [congruence |]. intros k. now rewrite Hsp, Hsq. }
  unfold plot_all_toggle, update_plot. cbn [wave_objects set_plot_all].
  destruct (wave_objects self) as [| v l] eqn:E; [contradiction |].
  rewrite Hp, Hq. cbn [snd].
  split; [reflexivity |]. split; [reflexivity |].
  split; [congruence |]. split; [exact Hfv |].
  split; [rewrite Hfv in Hfp; congruence |].
  split; [exact Hcq |]. rewrite Hcp. apply length_map.
Qed.

Lemma plot_all_toggle_keeps_the_sound_witness :
  exists p q,
    snd (plot_all_toggle
           (mkLayout EmptyString 3 [mkWaveInfo "sine" 1 440 1] 44100 false
                     linux_datadir) true) = Ok (Some p) /\
    snd (plot_all_toggle
           (mkLayout EmptyString 3 [mkWaveInfo "sine" 1 440 1] 44100 false
                     linux_datadir) false) = Ok (Some q) /\
    max_t p = max_t q /\
    final_vec p = final_vec q /\
    spectrum p = spectrum q /\
    curves q = [] /\
    length (curves p) = 1%nat.
Proof.
  apply (plot_all_toggle_keeps_the_sound
           (mkLayout EmptyString 3 [mkWaveInfo "sine" 1 440 1] 44100 false
                     linux_datadir)).
  - repeat constructor; cbn [duration max_dur]; lia.
  - cbn [rate]. lia.
  - cbn [max_dur]. lia.
  - discriminate.
Defined.

(** With a single wave in the list the accumulated array is that wave
    followed by zeros up to [max_dur * rate] samples. *)
Theorem update_plot_single_wave (self : PyQtLayout) (v : WaveInfo) :
  wave_objects self = [v] ->
  supported (shape v) = true -> (0 <= duration v <= max_dur self)%Z ->
  (0 < rate self)%Z -> (0 < max_dur self)%Z ->
  exists buf p,
    gen_wave v (rate self) = Ok buf /\
    snd (update_plot self) = Ok (Some p) /\
    final_vec p
    = buf ++ repeat 0 (Z.to_nat (max_dur self * rate self) - length buf).
Proof.
  intros Hl Hs Hd Hr Hm.
  destruct (wave_gen_wave v (rate self) Hs) as [Hg Hlen]; [nia |].
  destruct (update_plot_returns self) as (p & Hp & _ & Hlp & Hsum & _).
  { unfold well_formed. rewrite Hl. repeat constructor; (assumption || lia). }
  { assumption. }
  { assumption. }
  { rewrite Hl. discriminate. }
  exists (wave v (rate self)), p. split; [exact Hg |]. split; [exact Hp |].
  apply sample_ext.
  - rewrite Hlp, length_app, repeat_length, Hlen.
    assert (Z.to_nat (duration v * rate self)
            <= Z.to_nat (max_dur self * rate self))%nat
      by (apply Z2Nat.inj_le; nia).
    lia.
  - intros k. rewrite Hsum, Hl. cbn [mixed fold_left].
    change (wave v (rate self)
            ++ repeat 0 (Z.to_nat (max_dur self * rate self)
                         - length (wave v (rate self))))
      with (Np.pad (wave v (rate self))
                   (Z.to_nat (max_dur self * rate self)
                    - length (wave v (rate self)))).
    rewrite sample_pad. ring.
Qed.

Lemma update_plot_single_wave_witness :
  exists buf p,
    gen_wave (mkWaveInfo "sawtooth" 2 110 1) 44100 = Ok buf /\
    snd (update_plot (mkLayout EmptyString 3 [mkWaveInfo "sawtooth" 2 110 1]
                               44100 true linux_datadir)) = Ok (Some p) /\
    final_vec p = buf ++ repeat 0 (Z.to_nat (3 * 44100) - length buf).
Proof.
  apply (update_plot_single_wave
           (mkLayout EmptyString 3 [mkWaveInfo "sawtooth" 2 110 1]
                     44100 true linux_datadir)
           (mkWaveInfo "sawtooth" 2 110 1));
    try reflexivity; cbn [duration max_dur rate]; lia.
Defined.

(** ** [render] never changes the length of the accumulator *)

Lemma iadd_length (a b c : list R) :
  Np.iadd a b = Ok c -> length c = length a.
Proof.
  unfold Np.iadd. destruct (Nat.eqb_spec (length b) (length a)) as [E | _].
  - intros H. injection H as <-. now apply zip_add_length.
  - destruct b as [| x [| y b]]; try discriminate.
    intros H. injection H as <-. apply length_map.
Qed.

Lemma accumulate_length (self : PyQtLayout) (t acc acc' : list R)
    (drawn drawn' : list (list R)) (v : WaveInfo) :
  accumulate self t (acc, drawn) v = Ok (acc', drawn') ->
  Forall (fun c => length c = length t) drawn ->
  length acc' = length acc /\ Forall (fun c => length c = length t) drawn'.
Proof.
  unfold accumulate. intros H Hd.
  apply bind_Ok_inv in H. destruct H as (cur & _ & H).
  apply bind_Ok_inv in H. destruct H as (dr & Hdr & H).
  apply bind_Ok_inv in H. destruct H as (fv & Hfv & H).
  injection H as <- <-. split; [eapply iadd_length, Hfv |].
  destruct (plot_all self).
  - unfold axes_plot in Hdr.
    destruct (Nat.eqb_spec (length t)
                (length (if (length cur <? length acc)%nat
                         then Np.pad cur (length acc - length cur) else cur)))
      as [E | _]; [| discriminate].
    injection Hdr as <-. apply Forall_app. split; [exact Hd |].
    constructor; [now symmetry | constructor].
  - now injection Hdr as <-.
Qed.

Lemma for_each_accumulate_length (self : PyQtLayout) (t : list R)
    (l : list WaveInfo) :
  forall acc drawn acc' drawn',
  for_each (accumulate self t) l (acc, drawn) = Ok (acc', drawn') ->
  Forall (fun c => length c = length t) drawn ->
  length acc' = length acc /\ Forall (fun c => length c = length t) drawn'.
Proof.
  induction l as [| v l IH]; intros acc drawn acc' drawn' H Hd.
  - injection H as <- <-. split; [reflexivity | exact Hd].
  - cbn [for_each] in H. apply bind_Ok_inv in H.
    destruct H as ([acc1 drawn1] & H1 & H).
    destruct (accumulate_length _ _ _ _ _ _ _ H1 Hd) as [Hl1 Hd1].
    destruct (IH _ _ _ _ H Hd1) as [Hl2 Hd2].
    split; [congruence | exact Hd2].
Qed.

Lemma get_fft_Ok_inv (sampFreq : Z) (sound : list R) (xy : list R * list R) :
  get_fft sampFreq sound = Ok xy -> sampFreq <> 0%Z /\ sound <> [].
Proof.
  unfold get_fft, truediv. intros H. split.
  - intros ->. discriminate H.
  - intros ->. destruct (sampFreq =? 0)%Z; discriminate H.
Qed.

Lemma render_length (self : PyQtLayout) (p : plots) :
  render self = Ok p ->
  (0 < max_dur self * rate self)%Z /\
  Z.of_nat (length (final_vec p)) = (max_dur self * rate self)%Z /\
  length (max_t p) = length (final_vec p) /\
  Forall (fun c => length c = length (final_vec p)) (curves p).
Proof.
  unfold render. intros H.
  apply bind_Ok_inv in H. destruct H as (t & Ht & H).
  apply bind_Ok_inv in H. destruct H as ([fv drawn] & Hloop & H).
  apply bind_Ok_inv in H. destruct H as (xy & Hfft & H).
  injection H as <-. cbn [max_t final_vec curves].
  destruct (for_each_accumulate_length _ _ _ _ _ _ _ Hloop) as [Hl Hd];
    [constructor |].
  rewrite length_map in Hl.
  pose proof (linspace_length _ _ _ _ Ht) as Htl.
  assert (Hne : fv <> []) by (eapply get_fft_Ok_inv, Hfft).
  assert (Hpos : (0 < length fv)%nat) by (destruct fv; [contradiction | cbn; lia]).
  rewrite Hl in *. split; [lia |]. split; [lia |]. split; [reflexivity | exact Hd].
Qed.

Lemma update_plot_render (self : PyQtLayout) (p : plots) :
  snd (update_plot self) = Ok (Some p) -> render self = Ok p.
Proof.
  unfold update_plot. destruct (wave_objects self); [discriminate |].
  destruct (render self) as [q | e]; cbn [snd]; congruence.
Qed.

(** Whatever the waves in the list, when [update_plot] draws, the
    accumulated array, the time axis and every curve drawn have exactly
    [max_dur * rate] samples, and that number is positive: no wave ever
    stretches or cuts the mix. *)
Theorem update_plot_keeps_length (self : PyQtLayout) (p : plots) :
  snd (update_plot self) = Ok (Some p) ->
  (0 < max_dur self * rate self)%Z /\
  Z.of_nat (length (final_vec p)) = (max_dur self * rate self)%Z /\
  length (max_t p) = length (final_vec p) /\
  Forall (fun c => length c = length (final_vec p)) (curves p).
Proof. intros H. now apply render_length, update_plot_render. Qed.

Lemma update_plot_keeps_length_witness :
  exists p,
    snd (update_plot (mkLayout EmptyString 3 [mkWaveInfo "sine" 1 440 1] 44100
                               true linux_datadir)) = Ok (Some p) /\
    Z.of_nat (length (final_vec p)) = (3 * 44100)%Z /\
    Forall (fun c => length c = length (final_vec p)) (curves p).
Proof.
  destruct (update_plot_returns
              (mkLayout EmptyString 3 [mkWaveInfo "sine" 1 440 1] 44100 true
                        linux_datadir))
    as (p & Hp & _).
  - repeat constructor; cbn [duration max_dur]; lia.
  - cbn [rate]. lia.
  - cbn [max_dur]. lia.
  - discriminate.
  - exists p. split; [exact Hp |].
    destruct (update_plot_keeps_length _ p Hp) as (_ & Hlen & _ & Hc).
    split; [exact Hlen | exact Hc].
Defined.

(** ** A wave of negative duration *)








Lemma run_floor (datadir : string) (session : list action) :
  (3 <= max_dur (run (init datadir) session))%Z.
Proof. rewrite run_max_dur. apply fold_max_ge. Qed.



(** ** Sessions of valid input never raise *)

Lemma well_formed_fields (self self' : PyQtLayout) :
  wave_objects self' = wave_objects self -> max_dur self' = max_dur self ->
  well_formed self -> well_formed self'.
Proof. unfold well_formed. now intros -> ->. Qed.

Lemma run_durations_fit (datadir : string) (session : list action) :
  Forall (fun v => (duration v <= max_dur (run (init datadir) session))%Z)
         (wave_objects (run (init datadir) session)).
Proof.
  rewrite run_wave_objects, run_max_dur. cbn [init wave_objects max_dur].
  apply kept_added.
  pose proof (fold_max_covers (map duration (added session)) 3) as Hc.
  now rewrite Forall_map in Hc.
Qed.

Lemma run_listed_well_formed (datadir : string) (session : list action) :
  Forall (fun v => supported (shape v) = true /\ (0 <= duration v)%Z)
         (wave_objects (run (init datadir) session)) ->
  well_formed (run (init datadir) session).
Proof.
  intros H. pose proof (run_durations_fit datadir session) as Hfit.
  unfold well_formed. rewrite Forall_forall in *. intros v Hv.
  specialize (H v Hv). specialize (Hfit v Hv). cbn beta in Hfit. intuition lia.
Qed.

(** An action raises only if it leaves a bad wave in the list: when, after
    the action, every wave in the list has a supported shape, as the combo
    box guarantees, and no negative duration, the action did not raise, and
    if it was an Add Wave with parsable fields it drew the plots.  Waves
    removed by an earlier Reset do not matter. *)
Theorem valid_list_never_raises (datadir : string) (session : list action)
    (a : action) :
  Forall (fun v => supported (shape v) = true /\ (0 <= duration v)%Z)
         (wave_objects (run (init datadir) (session ++ [a]))) ->
  raises (snd (perform (run (init datadir) session) a)) = false /\
  (forall f d s x, a = AddWave (Parsed f d s x) ->
     exists p, snd (perform (run (init datadir) session) a) = Ok (Some p)).
Proof.
  intros Hall.
  pose proof (run_listed_well_formed datadir (session ++ [a]) Hall) as Hwf.
  rewrite run_snoc in Hwf.
  pose proof (run_floor datadir session) as Hfl.
  pose proof (run_rate session (init datadir)) as Hr. cbn [init rate] in Hr.
  set (self := run (init datadir) session) in *.
  destruct a as [[| f d s x] | | | checked]; cbn [perform] in *.
  - split; [reflexivity | discriminate].
  - unfold addWave in *. set (self2 := set_wave_objects _ _) in *.
    destruct (update_plot_fields self2) as (Hm & Hw & Hr2 & _).
    cbv zeta in Hm, Hw, Hr2.
    assert (Hwf2 : well_formed self2)
      by (eapply (well_formed_fields (fst (update_plot self2))); eauto).
    assert (Hrate : rate self2 = 44100%Z).
    { unfold self2. cbn [rate set_wave_objects].
      destruct (d >? max_dur self)%Z; exact Hr. }
    assert (Hmax : (3 <= max_dur self2)%Z).
    { unfold self2. cbn [max_dur set_wave_objects].
      destruct (Z.gtb_spec d (max_dur self)); cbn [max_dur set_max_dur]; lia. }
    destruct (update_plot_returns self2 Hwf2) as (p & Hp & _); [lia | lia | |].
    { unfold self2. cbn [wave_objects set_wave_objects].
      intros E. apply app_eq_nil in E. destruct E as [_ E]. discriminate E. }
    rewrite Hp. split; [reflexivity |]. intros _ _ _ _ _. now exists p.
  - split; [reflexivity | discriminate].
  - split; [reflexivity | discriminate].
  - split; [| discriminate]. unfold plot_all_toggle in *.
    set (self2 := set_plot_all self checked) in *.
    destruct (update_plot_fields self2) as (Hm & Hw & _). cbv zeta in Hm, Hw.
    assert (Hwf2 : well_formed self2)
      by (eapply (well_formed_fields (fst (update_plot self2))); eauto).
    destruct (wave_objects self2) as [| v l] eqn:E.
    + unfold update_plot. now rewrite E.
    + destruct (update_plot_returns self2 Hwf2) as (p & Hp & _).
      * unfold self2. cbn [rate set_plot_all]. lia.
      * unfold self2. cbn [max_dur set_plot_all]. lia.
      * rewrite E. discriminate.
      * now rewrite Hp.
Qed.

Lemma valid_list_never_raises_witness :
  raises (snd (perform
                 (run (init linux_datadir)
                      [AddWave (Parsed 440 (-1) "sine" 1); Reset; PlotAll true])
                 (AddWave (Parsed 220 0 "square" 1)))) = false.
Proof.
  apply (valid_list_never_raises linux_datadir
           [AddWave (Parsed 440 (-1) "sine" 1); Reset; PlotAll true]
           (AddWave (Parsed 220 0 "square" 1))).
  rewrite run_wave_objects. repeat constructor; cbn [duration]; lia.
Defined.

(** ** What holds after every session *)




(** ** The name of the wave file *)

Lemma append_length (a b : string) :
  String.length (a ++ b) = (String.length a + String.length b)%nat.
Proof. induction a as [| c a IH]; cbn; [reflexivity | now rewrite IH]. Qed.

Lemma append_cancel_l (p a b : string) :
  (p ++ a)%string = (p ++ b)%string -> a = b.
Proof.
  induction p as [| c p IH]; cbn; intros H; [exact H |].
  injection H as H. now apply IH.
Qed.

Lemma append_cancel_r (a b s : string) :
  (a ++ s)%string = (b ++ s)%string -> a = b.
Proof.
  revert b. induction a as [| c a IH]; intros [| c' b] H.
  - reflexivity.
  - exfalso. apply (f_equal String.length) in H.
    cbn [String.append] in H. cbn [String.length] in H.
    rewrite append_length in H. lia.
  - exfalso. apply (f_equal String.length) in H.
    cbn [String.append] in H. cbn [String.length] in H.
    rewrite append_length in H. lia.
  - cbn [String.append] in H. injection H as -> H. f_equal. now apply IH.
Qed.

Lemma str_injective (n m : nat) : str n = str m -> n = m.
Proof.
  unfold str. intros H.
  apply (f_equal NilEmpty.uint_of_string) in H.
  rewrite !NilEmpty.usu in H. injection H as H.
  apply (f_equal Nat.of_uint) in H.
  now rewrite !DecimalNat.Unsigned.of_to in H.
Qed.

Lemma update_plot_current_wave (self : PyQtLayout) (p : plots) :
  snd (update_plot self) = Ok (Some p) ->
  current_wave (fst (update_plot self))
  = (wavedir self ++ "/" ++ file_end self)%string.
Proof.
  unfold update_plot. destruct (wave_objects self) as [| v l] eqn:E.
  - discriminate.
  - destruct (render self); [reflexivity | discriminate].
Qed.

(** Two successful calls of [update_plot] with the same data directory
    name the same wave file exactly when the two lists hold the same number
    of waves: the file of a mix is overwritten by any later mix of as many
    waves, and by no other. *)
Theorem wave_file_keyed_by_count (self1 self2 : PyQtLayout) (p1 p2 : plots) :
  snd (update_plot self1) = Ok (Some p1) ->
  snd (update_plot self2) = Ok (Some p2) ->
  wavedir self1 = wavedir self2 ->
  (current_wave (fst (update_plot self1)) = current_wave (fst (update_plot self2))
   <-> length (wave_objects self1) = length (wave_objects self2)).
Proof.
  intros H1 H2 Hd.
  rewrite (update_plot_current_wave _ _ H1), (update_plot_current_wave _ _ H2).
  rewrite Hd. unfold file_end. split.
  - intros H. apply append_cancel_l in H. apply (append_cancel_l "/") in H.
    apply (append_cancel_l "wave_sum_") in H.
    apply append_cancel_r in H. now apply str_injective.
  - now intros ->.
Qed.

Lemma wave_file_keyed_by_count_witness :
  exists p1 p2,
    snd (update_plot (mkLayout EmptyString 3 [mkWaveInfo "sine" 1 440 1]
                               44100 false linux_datadir)) = Ok (Some p1) /\
    snd (update_plot (mkLayout EmptyString 5 [mkWaveInfo "square" 2 220 1]
                               44100 true linux_datadir)) = Ok (Some p2) /\
    current_wave (fst (update_plot (mkLayout EmptyString 3 [mkWaveInfo "sine" 1 440 1]
                                             44100 false linux_datadir)))
    = current_wave (fst (update_plot (mkLayout EmptyString 5
                                                [mkWaveInfo "square" 2 220 1]
                                                44100 true linux_datadir))).
Proof.
  destruct (update_plot_returns
              (mkLayout EmptyString 3 [mkWaveInfo "sine" 1 440 1]
                        44100 false linux_datadir)) as (p1 & H1 & _).
  { repeat constructor; cbn [duration max_dur]; lia. }
  { cbn [rate]. lia. }
  { cbn [max_dur]. lia. }
  { discriminate. }
  destruct (update_plot_returns
              (mkLayout EmptyString 5 [mkWaveInfo "square" 2 220 1]
                        44100 true linux_datadir)) as (p2 & H2 & _).
  { repeat constructor; cbn [duration max_dur]; lia. }
  { cbn [rate]. lia. }
  { cbn [max_dur]. lia. }
  { discriminate. }
  exists p1, p2. split; [exact H1 |]. split; [exact H2 |].
  apply (wave_file_keyed_by_count _ _ p1 p2 H1 H2); reflexivity.
Defined.

(** ** Waves that are silent *)

Lemma sample_all_zero (a : list R) (k : nat) :
  Forall (fun x => x = 0) a -> sample a k = 0.
Proof.
  intros H. revert k. induction H as [| x a Hx _ IH]; intros [| k];
    try reflexivity; [exact Hx | apply IH].
Qed.

Lemma silent_wave (v : WaveInfo) (r : Z) (k : nat) :
  supported (shape v) = true -> (0 <= duration v)%Z -> (0 < r)%Z ->
  duration v = 0%Z \/ amplitude v = 0 ->
  sample (wave v r) k = 0.
Proof.
  intros Hs Hd Hr [H0 | H0].
  - unfold wave. rewrite gen_wave_empty; [| exact Hs | rewrite H0; lia].
    now destruct k.
  - destruct (linspace_total 0 (IZR (duration v)) (duration v * r)) as (t & Ht);
      [nia |].
    unfold wave. rewrite (gen_wave_unit _ _ _ Hs Ht). apply sample_all_zero.
    unfold Np.multiply. apply Forall_map, Forall_forall. intros x _.
    rewrite H0. ring.
Qed.

(** Adding a wave that lasts 0 seconds, or has amplitude 0, to a list that
    already has waves changes neither the accumulated array nor its
    spectrum (the wave still counts for the name of the file). *)
Theorem addWave_silent (self : PyQtLayout) (f : R) (d : Z) (s : string) (x : R) :
  well_formed self -> (0 < rate self)%Z -> (0 < max_dur self)%Z ->
  wave_objects self <> [] ->
  supported s = true -> (0 <= d <= max_dur self)%Z -> d = 0%Z \/ x = 0 ->
  exists p q,
    snd (update_plot self) = Ok (Some p) /\
    snd (addWave self (Parsed f d s x)) = Ok (Some q) /\
    final_vec q = final_vec p /\
    spectrum q = spectrum p.
Proof.
  intros Hwf Hr Hm Hne Hs Hd H0.
  destruct (render_returns self Hwf Hr Hm) as (p & Hp & _ & Hlp & Hsp & _ & Hfp).
  set (v := mkWaveInfo s d f x).
  set (self2 := set_wave_objects self (wave_objects self ++ [v])).
  assert (Hwf2 : well_formed self2).
  { unfold well_formed, self2. cbn [wave_objects max_dur set_wave_objects].
    apply Forall_app. split; [exact Hwf |].
    constructor; [| constructor]. cbn [shape duration v]. split; assumption. }
  destruct (render_returns self2 Hwf2 Hr Hm) as (q & Hq & _ & Hlq & Hsq & _ & Hfq).
  cbn [self2 wave_objects max_dur rate set_wave_objects] in Hlq, Hsq, Hfq.
  assert (Hfv : final_vec q = final_vec p).
  { apply sample_ext; [congruence |]. intros k. rewrite Hsq, Hsp.
    unfold mixed. rewrite fold_left_app. cbn [fold_left].
    rewrite (silent_wave v (rate self) k); try assumption; [ring | cbn [duration v]; lia]. }
  exists p, q. split; [| split; [| split]].
  - unfold update_plot. destruct (wave_objects self); [contradiction |].
    now rewrite Hp.
  - unfold addWave. destruct (Z.gtb_spec d (max_dur self)) as [Hgt | _]; [lia |].
    fold v. fold self2. unfold update_plot.
    destruct (wave_objects self2) as [| u l] eqn:E.
    + unfold self2 in E. cbn [wave_objects set_wave_objects] in E.
      apply app_eq_nil in E. destruct E as [_ E]. discriminate E.
    + now rewrite Hq.
  - exact Hfv.
  - rewrite Hfv in Hfq. congruence.
Qed.

Lemma addWave_silent_witness :
  exists p q,
    snd (update_plot (mkLayout EmptyString 3 [mkWaveInfo "sine" 1 440 1]
                               44100 false linux_datadir)) = Ok (Some p) /\
    snd (addWave (mkLayout EmptyString 3 [mkWaveInfo "sine" 1 440 1]
                           44100 false linux_datadir)
                 (Parsed 220 2 "square" 0)) = Ok (Some q) /\
    final_vec q = final_vec p /\
    spectrum q = spectrum p.
Proof.
  apply (addWave_silent
           (mkLayout EmptyString 3 [mkWaveInfo "sine" 1 440 1]
                     44100 false linux_datadir) 220 2 "square" 0).
  - repeat constructor; cbn [duration max_dur]; lia.
  - cbn [rate]. lia.
  - cbn [max_dur]. lia.
  - discriminate.
  - reflexivity.
  - cbn [max_dur]. lia.
  - right. reflexivity.
Defined.

(** ** The table of waves *)

Example sorted_field_names :
  sorted ["shape"; "duration"; "freq"; "amplitude"]%string
  = ["amplitude"; "duration"; "freq"; "shape"]%string.
Proof. reflexivity. Qed.

Example str_value_negative :
  str_value (fun _ => "f"%string) (VInt (-12)) = "-12"%string.
Proof. reflexivity. Qed.

Lemma comprehension_total {A B : Type} (f : A -> result B) (g : A -> B)
    (l : list A) :
  (forall a, f a = Ok (g a)) -> comprehension f l = Ok (map g l).
Proof.
  intros H. induction l as [| a l IH]; [reflexivity |].
  cbn [comprehension map]. now rewrite H, IH.
Qed.

Lemma setItem_counts (t : QTableWidget) (m n : nat) (text : string) :
  rowCount (setItem t m n text) = rowCount t /\
  columnCount (setItem t m n text) = columnCount t /\
  horizontalHeaderLabels (setItem t m n text) = horizontalHeaderLabels t.
Proof. unfold setItem. destruct (_ && _); repeat split. Qed.

Lemma setItem_cell (t : QTableWidget) (m n : nat) (text : string) (i j : nat) :
  (m < rowCount t)%nat -> (n < columnCount t)%nat ->
  cell (setItem t m n text) i j =
  if ((i =? m)%nat && (j =? n)%nat)%bool then Some text else cell t i j.
Proof.
  intros Hm Hn. unfold setItem.
  destruct (Nat.ltb_spec m (rowCount t)); [| lia].
  destruct (Nat.ltb_spec n (columnCount t)); [| lia].
  reflexivity.
Qed.

(** After the inner loop the cells of column [n] from row [start] on hold
    the texts of the column; every other cell is as before. *)
Lemma fill_column_cells (float_str : R -> string) (n : nat) (column : list value) :
  forall (start : nat) (t : QTableWidget),
  (start + length column <= rowCount t)%nat -> (n < columnCount t)%nat ->
  let t' := fill_column float_str n column start t in
  rowCount t' = rowCount t /\
  columnCount t' = columnCount t /\
  horizontalHeaderLabels t' = horizontalHeaderLabels t /\
  forall i j,
    cell t' i j =
    if ((j =? n)%nat && (start <=? i)%nat)%bool
    then match nth_error column (i - start) with
         | Some item => Some (str_value float_str item)
         | None => cell t i j
         end
    else cell t i j.
Proof.
  induction column as [| x column IH]; intros start t Hrows Hcols; cbv zeta.
  - cbn [fill_column length seq combine fold_left].
    repeat split. intros i j. destruct (_ && _); [| reflexivity].
    now destruct (i - start)%nat.
  - unfold fill_column. cbn [length seq combine fold_left].
    fold (fill_column float_str n column (S start)
            (setItem t start n (str_value float_str x))).
    cbn [length] in Hrows.
    destruct (setItem_counts t start n (str_value float_str x)) as (Hr & Hc & Hh).
    destruct (IH (S start) (setItem t start n (str_value float_str x)))
      as (Hr' & Hc' & Hh' & Hcell); [lia | lia |].
    split; [congruence |]. split; [congruence |]. split; [congruence |].
    intros i j. rewrite Hcell, setItem_cell by lia.
    destruct (Nat.eqb_spec j n) as [-> | Hj]; cbn [andb].
    + destruct (Nat.leb_spec (S start) i) as [Hi | Hi].
      * destruct (Nat.leb_spec start i); [| lia].
        replace (i - start)%nat with (S (i - S start)) by lia.
        cbn [nth_error].
        destruct (nth_error column (i - S start)); [reflexivity |].
        destruct (Nat.eqb_spec i start); [lia | reflexivity].
      * destruct (Nat.eqb_spec i start) as [-> | Hne]; cbn [andb].
        -- rewrite Nat.leb_refl, Nat.sub_diag. reflexivity.
        -- destruct (Nat.leb_spec start i); [lia | reflexivity].
    + rewrite !andb_false_r. reflexivity.
Qed.

(** [tableSetup] never raises and, whatever the table held before, leaves
    one row per wave and four columns, headed amplitude, duration, freq and
    shape in this (alphabetical) order; row [m] shows these four fields of
    the wave at position [m] of the list, and no cell outside holds an
    item. *)
Theorem tableSetup_shows_waves (float_str : R -> string) (self : PyQtLayout)
    (waveTable : QTableWidget) :
  exists t,
    tableSetup float_str self waveTable = Ok t /\
    rowCount t = length (wave_objects self) /\
    columnCount t = 4%nat /\
    horizontalHeaderLabels t = ["amplitude"; "duration"; "freq"; "shape"]%string /\
    (forall m w, nth_error (wave_objects self) m = Some w ->
       cell t m 0 = Some (float_str (amplitude w)) /\
       cell t m 1 = Some (NilEmpty.string_of_int (Z.to_int (duration w))) /\
       cell t m 2 = Some (float_str (freq w)) /\
       cell t m 3 = Some (shape w)) /\
    (forall m n, (length (wave_objects self) <= m)%nat \/ (4 <= n)%nat ->
       cell t m n = None).
Proof.
  unfold tableSetup.
  set (l := wave_objects self). set (N := length l).
  set (t0 := setColumnCount (setRowCount waveTable N) 4).
  cbn [for_each].
  rewrite (comprehension_total _ (fun w => VStr (shape w))) by reflexivity.
  cbn [bind].
  rewrite (comprehension_total _ (fun w => VInt (duration w))) by reflexivity.
  cbn [bind].
  rewrite (comprehension_total _ (fun w => VFloat (freq w))) by reflexivity.
  cbn [bind].
  rewrite (comprehension_total _ (fun w => VFloat (amplitude w))) by reflexivity.
  cbn [bind].
  change (enumerate (sorted (keys _)))
    with [(0%nat, "amplitude"%string); (1%nat, "duration"%string);
          (2%nat, "freq"%string); (3%nat, "shape"%string)].
  cbn [for_each].
  change (getitem _ "amplitude") with (Ok (map (fun w => VFloat (amplitude w)) l)).
  cbn [bind].
  change (getitem _ "duration") with (Ok (map (fun w => VInt (duration w)) l)).
  cbn [bind].
  change (getitem _ "freq") with (Ok (map (fun w => VFloat (freq w)) l)).
  cbn [bind].
  change (getitem _ "shape") with (Ok (map (fun w => VStr (shape w)) l)).
  cbn [bind app].
  assert (Hr0 : rowCount t0 = N) by reflexivity.
  assert (Hc0 : columnCount t0 = 4%nat) by reflexivity.
  destruct (fill_column_cells float_str 0 (map (fun w => VFloat (amplitude w)) l) 0 t0)
    as (Hr1 & Hc1 & _ & Hcell1); [rewrite length_map, Hr0; fold N; lia | lia |].
  set (t1 := fill_column _ 0 _ 0 t0) in *.
  destruct (fill_column_cells float_str 1 (map (fun w => VInt (duration w)) l) 0 t1)
    as (Hr2 & Hc2 & _ & Hcell2); [rewrite length_map, Hr1, Hr0; fold N; lia | lia |].
  set (t2 := fill_column _ 1 _ 0 t1) in *.
  destruct (fill_column_cells float_str 2 (map (fun w => VFloat (freq w)) l) 0 t2)
    as (Hr3 & Hc3 & _ & Hcell3);
    [rewrite length_map, Hr2, Hr1, Hr0; fold N; lia | lia |].
  set (t3 := fill_column _ 2 _ 0 t2) in *.
  destruct (fill_column_cells float_str 3 (map (fun w => VStr (shape w)) l) 0 t3)
    as (Hr4 & Hc4 & _ & Hcell4);
    [rewrite length_map, Hr3, Hr2, Hr1, Hr0; fold N; lia | lia |].
  set (t4 := fill_column _ 3 _ 0 t3) in *.
  eexists. split; [reflexivity |].
  cbn [rowCount columnCount cell horizontalHeaderLabels setHorizontalHeaderLabels].
  split; [congruence |]. split; [congruence |].
  split; [now rewrite Hc4, Hc3, Hc2, Hc1, Hc0 |]. split.
  - intros m w Hw.
    rewrite !Hcell4, !Hcell3, !Hcell2, !Hcell1. cbn [Nat.eqb Nat.leb andb].
    rewrite Nat.sub_0_r, !nth_error_map, Hw. cbn [option_map str_value].
    repeat split.
  - intros m n Hout.
    rewrite Hcell4, Hcell3, Hcell2, Hcell1. cbn [Nat.leb]. rewrite !andb_true_r.
    rewrite Nat.sub_0_r, !nth_error_map.
    assert (Ht0 : cell t0 m n = None).
    { unfold t0. cbn [cell setColumnCount setRowCount].
      destruct (Nat.ltb_spec n 4); [| reflexivity].
      destruct (Nat.ltb_spec m N); [| reflexivity].
      destruct Hout; lia. }
    destruct Hout as [Hm | Hn].
    + assert (Hnone : nth_error l m = None) by now apply nth_error_None.
      rewrite Hnone. cbn [option_map].
      now repeat destruct (_ =? _)%nat.
    + destruct (Nat.eqb_spec n 3); [lia |].
      destruct (Nat.eqb_spec n 2); [lia |].
      destruct (Nat.eqb_spec n 1); [lia |].
      destruct (Nat.eqb_spec n 0); [lia | exact Ht0].
Qed.

(** ** The length of the mix over a session *)

(** Whenever [update_plot] draws after a session, the accumulated array has
    44100 samples for each second of the longest wave added so far, Reset
    or not, and at least 3 * 44100 samples. *)
Theorem mix_length_after_session (datadir : string) (session : list action)
    (p : plots) :
  snd (update_plot (run (init datadir) session)) = Ok (Some p) ->
  Z.of_nat (length (final_vec p))
  = (fold_left Z.max (map duration (added session)) 3 * 44100)%Z.
Proof.
  intros H. apply update_plot_render, render_length in H.
  destruct H as (_ & Hlen & _).
  now rewrite Hlen, run_max_dur, run_rate.
Qed.

Lemma mix_length_after_session_witness :
  exists p,
    snd (update_plot
           (run (init linux_datadir)
                [AddWave (Parsed 440 7 "sine" 1); Reset;
                 AddWave (Parsed 440 1 "sine" 1)])) = Ok (Some p) /\
    Z.of_nat (length (final_vec p)) = (7 * 44100)%Z.
Proof.
  destruct (update_plot_returns
              (run (init linux_datadir)
                   [AddWave (Parsed 440 7 "sine" 1); Reset;
                    AddWave (Parsed 440 1 "sine" 1)])) as (p & Hp & _).
  - apply run_listed_well_formed. rewrite run_wave_objects.
    repeat constructor; cbn [duration]; lia.
  - rewrite run_rate. cbn [init rate]. lia.
  - rewrite run_max_dur. cbn. lia.
  - rewrite run_wave_objects. discriminate.
  - exists p. split; [exact Hp |].
    exact (mix_length_after_session linux_datadir _ p Hp).
Defined.
